(** * Dynamic file list updater (src/filemanager/dirwatch.c)

    A shallow embedding of the inotify-based directory watcher of the
    Midnight Commander.  The file-scope [static] variables of dirwatch.c
    become one record that is threaded through every function; the calls
    the watcher makes to the kernel, to the select loop and to the panels
    are recorded in a trace, and what those calls answer is read from an
    environment record. *)

From Stdlib Require Import ZArith String List Bool Lia.
Import ListNotations.
Open Scope Z_scope.

(** ** The collaborators of the watcher *)

(** Modelled from the spec: the panel view enumeration is declared in
    layout.h/panel.h, which are not among the sources; dirwatch.c names
    only [view_listing] ("currently displaying a directory listing, not
    some other mode"), so every other mode is [view_other]. *)
Inductive panel_view_mode_t : Type :=
| view_listing
| view_other.

Definition panel_view_mode_eqb (a b : panel_view_mode_t) : bool :=
  match a, b with
  | view_listing, view_listing => true
  | view_other, view_other => true
  | _, _ => false
  end.

(** [p->cwd_vpath] together with the two queries dirwatch.c asks of it:
    [vfs_path_as_str] (which may answer NULL) and [vfs_file_is_local]. *)
Record vfs_path_t : Type := {
  vfs_path_as_str : option string;
  vfs_file_is_local : bool
}.

(** A [WPanel].  [panel_addr] stands for the address of the object: the
    source compares panel pointers ([p == left_panel]). *)
Record WPanel : Type := {
  panel_addr : Z;
  is_panelized : bool;
  cwd_vpath : vfs_path_t
}.

(** [struct inotify_event], as the drain loop sees it. *)
Record inotify_event : Type := {
  wd : Z;
  mask : Z;
  len : Z
}.

(** Bits of <sys/inotify.h>. *)
Definition IN_ATTRIB : Z := 0x4.
Definition IN_MOVED_FROM : Z := 0x40.
Definition IN_MOVED_TO : Z := 0x80.
Definition IN_CREATE : Z := 0x100.
Definition IN_DELETE : Z := 0x200.
Definition IN_DELETE_SELF : Z := 0x400.
Definition IN_MOVE_SELF : Z := 0x800.

Definition DW_MASK : Z :=
  Z.lor IN_CREATE (Z.lor IN_DELETE (Z.lor IN_MOVED_FROM (Z.lor IN_MOVED_TO
    (Z.lor IN_DELETE_SELF (Z.lor IN_MOVE_SELF IN_ATTRIB))))).

(** The two select-loop callbacks the watcher registers. *)
Inductive select_callback : Type :=
| cb_dirwatch_callback
| cb_dirwatch_timer_callback.

(** Calls that leave the watcher, in the order they are made.
    [timerfd_settime fd secs] programs [it_value.tv_sec = secs] with a
    zero interval: [secs = 0] disarms the timer. *)
Inductive call : Type :=
| inotify_init1
| inotify_add_watch (fd : Z) (path : string) (m : Z)
| inotify_rm_watch (fd : Z) (w : Z)
| timerfd_create
| timerfd_settime (fd : Z) (secs : Z)
| read (fd : Z)
| close (fd : Z)
| add_select_channel (fd : Z) (cb : select_callback)
| delete_select_channel (fd : Z)
| panel_reload (p : WPanel)
| repaint_screen.

(** What the outside world answers while one entry point of the watcher
    runs: the two panel globals of filemanager.c, the layout queries, and
    the results of the system calls.  [inotify_reads] lists the buffers
    that successive [read (inotify_fd, ...)] calls return with [len > 0];
    the read after the last one returns no data. *)
Record Env : Type := {
  left_panel : option WPanel;
  right_panel : option WPanel;
  get_panel_type : Z -> panel_view_mode_t;
  dynamic_file_list_debounce_sec : Z;
  inotify_init1_result : Z;
  timerfd_create_result : Z;
  inotify_add_watch_result : Z -> string -> Z;
  inotify_reads : list (list inotify_event)
}.

(** ** The watcher's own state: the statics of dirwatch.c *)

Record dirwatch : Type := {
  inotify_fd : Z;
  timer_fd : Z;
  wd_left : Z;
  wd_right : Z;
  left_path : option string;
  right_path : option string;
  watcher_enabled : bool;
  watcher_quiet : bool;
  pending_left : bool;
  pending_right : bool
}.

Definition dirwatch_init : dirwatch := {|
  inotify_fd := -1;
  timer_fd := -1;
  wd_left := -1;
  wd_right := -1;
  left_path := None;
  right_path := None;
  watcher_enabled := false;
  watcher_quiet := false;
  pending_left := false;
  pending_right := false
|}.

Definition set_inotify_fd (v : Z) (s : dirwatch) : dirwatch :=
  {| inotify_fd := v; timer_fd := timer_fd s;
     wd_left := wd_left s; wd_right := wd_right s;
     left_path := left_path s; right_path := right_path s;
     watcher_enabled := watcher_enabled s; watcher_quiet := watcher_quiet s;
     pending_left := pending_left s; pending_right := pending_right s |}.

Definition set_timer_fd (v : Z) (s : dirwatch) : dirwatch :=
  {| inotify_fd := inotify_fd s; timer_fd := v;
     wd_left := wd_left s; wd_right := wd_right s;
     left_path := left_path s; right_path := right_path s;
     watcher_enabled := watcher_enabled s; watcher_quiet := watcher_quiet s;
     pending_left := pending_left s; pending_right := pending_right s |}.

Definition set_wd_left (v : Z) (s : dirwatch) : dirwatch :=
  {| inotify_fd := inotify_fd s; timer_fd := timer_fd s;
     wd_left := v; wd_right := wd_right s;
     left_path := left_path s; right_path := right_path s;
     watcher_enabled := watcher_enabled s; watcher_quiet := watcher_quiet s;
     pending_left := pending_left s; pending_right := pending_right s |}.

Definition set_wd_right (v : Z) (s : dirwatch) : dirwatch :=
  {| inotify_fd := inotify_fd s; timer_fd := timer_fd s;
     wd_left := wd_left s; wd_right := v;
     left_path := left_path s; right_path := right_path s;
     watcher_enabled := watcher_enabled s; watcher_quiet := watcher_quiet s;
     pending_left := pending_left s; pending_right := pending_right s |}.

Definition set_left_path (v : option string) (s : dirwatch) : dirwatch :=
  {| inotify_fd := inotify_fd s; timer_fd := timer_fd s;
     wd_left := wd_left s; wd_right := wd_right s;
     left_path := v; right_path := right_path s;
     watcher_enabled := watcher_enabled s; watcher_quiet := watcher_quiet s;
     pending_left := pending_left s; pending_right := pending_right s |}.

Definition set_right_path (v : option string) (s : dirwatch) : dirwatch :=
  {| inotify_fd := inotify_fd s; timer_fd := timer_fd s;
     wd_left := wd_left s; wd_right := wd_right s;
     left_path := left_path s; right_path := v;
     watcher_enabled := watcher_enabled s; watcher_quiet := watcher_quiet s;
     pending_left := pending_left s; pending_right := pending_right s |}.

Definition set_watcher_enabled (v : bool) (s : dirwatch) : dirwatch :=
  {| inotify_fd := inotify_fd s; timer_fd := timer_fd s;
     wd_left := wd_left s; wd_right := wd_right s;
     left_path := left_path s; right_path := right_path s;
     watcher_enabled := v; watcher_quiet := watcher_quiet s;
     pending_left := pending_left s; pending_right := pending_right s |}.

Definition set_watcher_quiet (v : bool) (s : dirwatch) : dirwatch :=
  {| inotify_fd := inotify_fd s; timer_fd := timer_fd s;
     wd_left := wd_left s; wd_right := wd_right s;
     left_path := left_path s; right_path := right_path s;
     watcher_enabled := watcher_enabled s; watcher_quiet := v;
     pending_left := pending_left s; pending_right := pending_right s |}.

Definition set_pending_left (v : bool) (s : dirwatch) : dirwatch :=
  {| inotify_fd := inotify_fd s; timer_fd := timer_fd s;
     wd_left := wd_left s; wd_right := wd_right s;
     left_path := left_path s; right_path := right_path s;
     watcher_enabled := watcher_enabled s; watcher_quiet := watcher_quiet s;
     pending_left := v; pending_right := pending_right s |}.

Definition set_pending_right (v : bool) (s : dirwatch) : dirwatch :=
  {| inotify_fd := inotify_fd s; timer_fd := timer_fd s;
     wd_left := wd_left s; wd_right := wd_right s;
     left_path := left_path s; right_path := right_path s;
     watcher_enabled := watcher_enabled s; watcher_quiet := watcher_quiet s;
     pending_left := pending_left s; pending_right := v |}.

(** ** A state-and-trace monad for the C functions *)

Definition M (A : Type) : Type := dirwatch -> A * dirwatch * list call.

Definition ret {A : Type} (a : A) : M A := fun s => (a, s, []).

Definition bind {A B : Type} (m : M A) (k : A -> M B) : M B :=
  fun s =>
    match m s with
    | (a, s1, t1) =>
        match k a s1 with
        | (b, s2, t2) => (b, s2, t1 ++ t2)
        end
    end.

Definition get : M dirwatch := fun s => (s, s, []).
Definition modify (f : dirwatch -> dirwatch) : M unit := fun s => (tt, f s, []).
Definition emit (c : call) : M unit := fun s => (tt, s, [c]).
Definition when (b : bool) (m : M unit) : M unit := if b then m else ret tt.

Declare Scope dw_scope.
Delimit Scope dw_scope with dw.
Notation "x <- m ;; k" := (bind m (fun x => k))
  (at level 61, m at next level, right associativity) : dw_scope.
Notation "m ;; k" := (bind m (fun _ => k))
  (at level 61, right associativity) : dw_scope.
Open Scope dw_scope.

(** The state and the trace an action leaves behind. *)
Definition state_after {A : Type} (m : M A) (s : dirwatch) : dirwatch :=
  snd (fst (m s)).
Definition trace_of {A : Type} (m : M A) (s : dirwatch) : list call :=
  snd (m s).

(** ** The functions of dirwatch.c *)

Section Dirwatch.

Variable env : Env.

Definition dirwatch_reset_paths : M unit :=
  modify (set_right_path None) ;;
  modify (set_left_path None).

Definition dirwatch_clear_watches : M unit :=
  s <- get ;;
  when (0 <=? inotify_fd s)
    (when (0 <=? wd_left s) (emit (inotify_rm_watch (inotify_fd s) (wd_left s))) ;;
     when (0 <=? wd_right s) (emit (inotify_rm_watch (inotify_fd s) (wd_right s)))) ;;
  modify (set_wd_right (-1)) ;;
  modify (set_wd_left (-1)) ;;
  dirwatch_reset_paths.

Definition dirwatch_disarm_timer : M unit :=
  s <- get ;;
  when (0 <=? timer_fd s) (emit (timerfd_settime (timer_fd s) 0)).

Definition dirwatch_arm_timer : M unit :=
  s <- get ;;
  if timer_fd s <? 0 then ret tt
  else
    let secs := dynamic_file_list_debounce_sec env in
    let secs := if secs <? 1 then 1 else secs in
    emit (timerfd_settime (timer_fd s) secs).

(** Pointer comparison [p == q] of two [WPanel *]. *)
Definition panel_ptr_eqb (p q : option WPanel) : bool :=
  match p, q with
  | None, None => true
  | Some a, Some b => panel_addr a =? panel_addr b
  | _, _ => false
  end.

(** [dirwatch_panel_should_watch (p, &path)]: [Some path] stands for
    TRUE with [*out_path = path], [None] for FALSE. *)
Definition dirwatch_panel_should_watch (p : option WPanel) : option string :=
  match p with
  | None => None
  | Some w =>
      if negb (panel_view_mode_eqb
                 (get_panel_type env (if panel_ptr_eqb p (left_panel env) then 0 else 1))
                 view_listing)
      then None
      else if is_panelized w then None
      else
        match vfs_path_as_str (cwd_vpath w) with
        | None => None
        | Some path =>
            if negb (vfs_file_is_local (cwd_vpath w)) then None
            else Some path
        end
  end.

(** [left_path == NULL || strcmp (left_path, path) != 0] *)
Definition path_differs (stored : option string) (path : string) : bool :=
  match stored with
  | None => true
  | Some old => negb (String.eqb old path)
  end.

(** The block commented "Left panel" of [dirwatch_update_watches]. *)
Definition dirwatch_update_watches_left : M unit :=
  s <- get ;;
  match dirwatch_panel_should_watch (left_panel env) with
  | Some path =>
      if path_differs (left_path s) path then
        when (0 <=? wd_left s) (emit (inotify_rm_watch (inotify_fd s) (wd_left s))) ;;
        emit (inotify_add_watch (inotify_fd s) path DW_MASK) ;;
        modify (set_wd_left (inotify_add_watch_result env (inotify_fd s) path)) ;;
        modify (set_left_path (Some path))
      else ret tt
  | None =>
      if 0 <=? wd_left s then
        emit (inotify_rm_watch (inotify_fd s) (wd_left s)) ;;
        modify (set_wd_left (-1)) ;;
        modify (set_left_path None)
      else ret tt
  end.

(** The block commented "Right panel" of [dirwatch_update_watches]. *)
Definition dirwatch_update_watches_right : M unit :=
  s <- get ;;
  match dirwatch_panel_should_watch (right_panel env) with
  | Some path =>
      if path_differs (right_path s) path then
        when (0 <=? wd_right s) (emit (inotify_rm_watch (inotify_fd s) (wd_right s))) ;;
        emit (inotify_add_watch (inotify_fd s) path DW_MASK) ;;
        modify (set_wd_right (inotify_add_watch_result env (inotify_fd s) path)) ;;
        modify (set_right_path (Some path))
      else ret tt
  | None =>
      if 0 <=? wd_right s then
        emit (inotify_rm_watch (inotify_fd s) (wd_right s)) ;;
        modify (set_wd_right (-1)) ;;
        modify (set_right_path None)
      else ret tt
  end.

Definition dirwatch_update_watches : M unit :=
  s <- get ;;
  if negb (watcher_enabled s) || (inotify_fd s <? 0) then ret tt
  else
    dirwatch_update_watches_left ;;
    dirwatch_update_watches_right.

(** The inner [while (ptr < buf + len)] loop over one buffer: the pair
    is [(need_left, need_right)]. *)
Definition scan_buffer (s : dirwatch) (buf : list inotify_event)
    (need : bool * bool) : bool * bool :=
  fold_left
    (fun nd ev =>
       (if wd ev =? wd_left s then true else fst nd,
        if wd ev =? wd_right s then true else snd nd))
    buf need.

(** The outer [while ((len = read (...)) > 0)] loop; the last [read] is
    the one that returns no data. *)
Fixpoint read_events (reads : list (list inotify_event))
    (need : bool * bool) : M (bool * bool) :=
  match reads with
  | [] =>
      s <- get ;;
      emit (read (inotify_fd s)) ;;
      ret need
  | buf :: rest =>
      s <- get ;;
      emit (read (inotify_fd s)) ;;
      read_events rest (scan_buffer s buf need)
  end.

Definition dirwatch_callback (fd : Z) : M Z :=
  s <- get ;;
  if negb (fd =? inotify_fd s) then ret 0
  else
    need <- read_events (inotify_reads env) (false, false) ;;
    when (fst need) (modify (set_pending_left true)) ;;
    when (snd need) (modify (set_pending_right true)) ;;
    s' <- get ;;
    when (pending_left s' || pending_right s') dirwatch_arm_timer ;;
    ret 0.

Definition dirwatch_apply_pending : M unit :=
  s <- get ;;
  let do_left := pending_left s in
  let do_right := pending_right s in
  modify (set_pending_right false) ;;
  modify (set_pending_left false) ;;
  match left_panel env with
  | Some p => when do_left (emit (panel_reload p))
  | None => ret tt
  end ;;
  match right_panel env with
  | Some p => when do_right (emit (panel_reload p))
  | None => ret tt
  end ;;
  when (do_left || do_right) (emit repaint_screen) ;;
  dirwatch_disarm_timer.

Definition dirwatch_timer_callback (fd : Z) : M Z :=
  s <- get ;;
  if negb (fd =? timer_fd s) then ret 0
  else
    emit (read (timer_fd s)) ;;
    if watcher_quiet s then
      dirwatch_disarm_timer ;;
      ret 0
    else
      dirwatch_apply_pending ;;
      ret 0.

(** The early [return]s of the source become the branches of the
    conditionals; [enable_timer_and_update] is the part of the function
    below the inotify block, reached whether or not that block ran. *)
Definition dirwatch_set_enabled (enabled : bool) : M unit :=
  s <- get ;;
  if Bool.eqb enabled (watcher_enabled s) then
    when enabled dirwatch_update_watches
  else
    modify (set_watcher_enabled enabled) ;;
    if negb enabled then
      when (0 <=? inotify_fd s)
        (emit (delete_select_channel (inotify_fd s)) ;;
         dirwatch_clear_watches ;;
         emit (close (inotify_fd s)) ;;
         modify (set_inotify_fd (-1))) ;;
      when (0 <=? timer_fd s)
        (emit (delete_select_channel (timer_fd s)) ;;
         emit (close (timer_fd s)) ;;
         modify (set_timer_fd (-1)))
    else
      let enable_timer_and_update : M unit :=
        s1 <- get ;;
        when (timer_fd s1 <? 0)
          (emit timerfd_create ;;
           modify (set_timer_fd (timerfd_create_result env)) ;;
           when (0 <=? timerfd_create_result env)
             (emit (add_select_channel (timerfd_create_result env)
                      cb_dirwatch_timer_callback))) ;;
        dirwatch_update_watches in
      if inotify_fd s <? 0 then
        emit inotify_init1 ;;
        modify (set_inotify_fd (inotify_init1_result env)) ;;
        if inotify_init1_result env <? 0 then
          modify (set_watcher_enabled false)
        else
          emit (add_select_channel (inotify_init1_result env)
                  cb_dirwatch_callback) ;;
          enable_timer_and_update
      else enable_timer_and_update.

Definition dirwatch_set_quiet (quiet : bool) : M unit :=
  s <- get ;;
  if negb (watcher_enabled s) || Bool.eqb (watcher_quiet s) quiet then ret tt
  else
    modify (set_watcher_quiet quiet) ;;
    s' <- get ;;
    when (negb (watcher_quiet s') && (pending_left s' || pending_right s'))
      dirwatch_apply_pending.

Definition dirwatch_panel_dir_changed (panel : option WPanel) : M unit :=
  s <- get ;;
  if negb (watcher_enabled s) then ret tt
  else dirwatch_update_watches.

End Dirwatch.

(** ** Slots, entry points and reachable states *)

(** The two watch positions: the left and the right panel. *)
Inductive slot : Type :=
| slot_left
| slot_right.

Definition other_slot (k : slot) : slot :=
  match k with
  | slot_left => slot_right
  | slot_right => slot_left
  end.

Definition handle_of (k : slot) (s : dirwatch) : Z :=
  match k with
  | slot_left => wd_left s
  | slot_right => wd_right s
  end.

Definition path_of (k : slot) (s : dirwatch) : option string :=
  match k with
  | slot_left => left_path s
  | slot_right => right_path s
  end.

Definition pending_of (k : slot) (s : dirwatch) : bool :=
  match k with
  | slot_left => pending_left s
  | slot_right => pending_right s
  end.

Definition panel_of (env : Env) (k : slot) : option WPanel :=
  match k with
  | slot_left => left_panel env
  | slot_right => right_panel env
  end.

(** The per-slot block of [dirwatch_update_watches]. *)
Definition update_block (env : Env) (k : slot) : M unit :=
  match k with
  | slot_left => dirwatch_update_watches_left env
  | slot_right => dirwatch_update_watches_right env
  end.

(** A descriptor or watch handle is present when it is not negative
    ([-1] is the "none" value of the source). *)
Definition present (v : Z) : bool := 0 <=? v.

(** The ways control enters dirwatch.c: the three public functions and
    the two callbacks handed to the select loop. *)
Inductive entry : Type :=
| enter_set_enabled (enabled : bool)
| enter_set_quiet (quiet : bool)
| enter_panel_dir_changed (panel : option WPanel)
| enter_callback (fd : Z)
| enter_timer_callback (fd : Z).

Definition run_entry (env : Env) (e : entry) : M unit :=
  match e with
  | enter_set_enabled b => dirwatch_set_enabled env b
  | enter_set_quiet b => dirwatch_set_quiet env b
  | enter_panel_dir_changed p => dirwatch_panel_dir_changed env p
  | enter_callback fd => _ <- dirwatch_callback env fd ;; ret tt
  | enter_timer_callback fd => _ <- dirwatch_timer_callback env fd ;; ret tt
  end.

(** The select loop passes a callback the descriptor it was registered
    with, which is a valid (non-negative) descriptor. *)
Definition entry_ok (e : entry) : bool :=
  match e with
  | enter_callback fd => 0 <=? fd
  | enter_timer_callback fd => 0 <=? fd
  | _ => true
  end.

(** Running a script of entries, each in the world it meets. *)
Fixpoint run (script : list (Env * entry)) (s : dirwatch) : dirwatch :=
  match script with
  | [] => s
  | (env, e) :: rest => run rest (state_after (run_entry env e) s)
  end.

Definition script_ok (script : list (Env * entry)) : bool :=
  forallb (fun step => entry_ok (snd step)) script.

Inductive reachable : dirwatch -> Prop :=
| reachable_init : reachable dirwatch_init
| reachable_step (env : Env) (e : entry) (s : dirwatch) :
    reachable s -> entry_ok e = true ->
    reachable (state_after (run_entry env e) s).

(** What holds of every reachable state: an enabled watcher owns its
    notification descriptor; a disabled one owns no descriptor and no
    binding; a stored handle always comes with its path. *)
Record dirwatch_inv (s : dirwatch) : Prop := {
  inv_enabled_fd : watcher_enabled s = true -> 0 <= inotify_fd s;
  inv_disabled_inotify : watcher_enabled s = false -> inotify_fd s < 0;
  inv_disabled_timer : watcher_enabled s = false -> timer_fd s < 0;
  inv_disabled_wd_left : watcher_enabled s = false -> wd_left s < 0;
  inv_disabled_wd_right : watcher_enabled s = false -> wd_right s < 0;
  inv_disabled_left_path : watcher_enabled s = false -> left_path s = None;
  inv_disabled_right_path : watcher_enabled s = false -> right_path s = None;
  inv_left_bound : 0 <= wd_left s -> left_path s <> None;
  inv_right_bound : 0 <= wd_right s -> right_path s <> None
}.

(** ** Vocabulary of the statements *)

(** What the drain loop computes from the buffers it reads. *)
Definition drained (s : dirwatch) (reads : list (list inotify_event))
    (need : bool * bool) : bool * bool :=
  fold_left (fun nd buf => scan_buffer s buf nd) reads need.

(** Some record of the list carries the watch identifier [w]. *)
Definition mentions (w : Z) (records : list inotify_event) : bool :=
  existsb (fun ev => wd ev =? w) records.

(** The reload a slot gets from an apply that starts in [s]: one call,
    if its flag is pending and its panel exists. *)
Definition reload_calls (env : Env) (k : slot) (s : dirwatch) : list call :=
  match panel_of env k with
  | Some p => if pending_of k s then [panel_reload p] else []
  | None => []
  end.

Definition repaint_calls (s : dirwatch) : list call :=
  if pending_left s || pending_right s then [repaint_screen] else [].

Definition disarm_calls (s : dirwatch) : list call :=
  if present (timer_fd s) then [timerfd_settime (timer_fd s) 0] else [].

(** The state an apply leaves: both pending flags cleared. *)
Definition pending_cleared (s : dirwatch) : dirwatch :=
  set_pending_left false (set_pending_right false s).

(** A trace in which nothing was applied: no reload, no repaint. *)
Definition is_apply_call (c : call) : bool :=
  match c with
  | panel_reload _ => true
  | repaint_screen => true
  | _ => false
  end.

Definition nothing_applied (tr : list call) : bool :=
  forallb (fun c => negb (is_apply_call c)) tr.

(** Every entry except a call of [dirwatch_set_enabled (TRUE)]. *)
Definition not_enable (e : entry) : bool :=
  match e with
  | enter_set_enabled true => false
  | _ => true
  end.

(** The slot's binding agrees with what its panel shows now: eligible
    with the stored path, or not eligible and without a handle. *)
Definition in_sync (env : Env) (k : slot) (s : dirwatch) : bool :=
  match dirwatch_panel_should_watch env (panel_of env k) with
  | Some path => negb (path_differs (path_of k s) path)
  | None => negb (present (handle_of k s))
  end.

(** ** A small world to run the watcher in *)

Definition local_dir (path : string) : vfs_path_t :=
  {| vfs_path_as_str := Some path; vfs_file_is_local := true |}.

Definition demo_left : WPanel :=
  {| panel_addr := 4096; is_panelized := false; cwd_vpath := local_dir "/tmp" |}.

Definition demo_right : WPanel :=
  {| panel_addr := 8192; is_panelized := false; cwd_vpath := local_dir "/var" |}.

(** A kernel that hands out descriptor 3 for inotify, 4 for the timer and
    one watch per known directory. *)
Definition demo_add_watch (fd : Z) (path : string) : Z :=
  if String.eqb path "/tmp" then 1
  else if String.eqb path "/var" then 2
  else if String.eqb path "/etc" then 5
  else -1.

Definition demo_env : Env :=
  {| left_panel := Some demo_left;
     right_panel := Some demo_right;
     get_panel_type := fun _ => view_listing;
     dynamic_file_list_debounce_sec := 2;
     inotify_init1_result := 3;
     timerfd_create_result := 4;
     inotify_add_watch_result := demo_add_watch;
     inotify_reads := [] |}.

(** The same world with something different in one place. *)
Definition with_reads (reads : list (list inotify_event)) (env : Env) : Env :=
  {| left_panel := left_panel env;
     right_panel := right_panel env;
     get_panel_type := get_panel_type env;
     dynamic_file_list_debounce_sec := dynamic_file_list_debounce_sec env;
     inotify_init1_result := inotify_init1_result env;
     timerfd_create_result := timerfd_create_result env;
     inotify_add_watch_result := inotify_add_watch_result env;
     inotify_reads := reads |}.

Definition with_panels (l r : option WPanel) (env : Env) : Env :=
  {| left_panel := l;
     right_panel := r;
     get_panel_type := get_panel_type env;
     dynamic_file_list_debounce_sec := dynamic_file_list_debounce_sec env;
     inotify_init1_result := inotify_init1_result env;
     timerfd_create_result := timerfd_create_result env;
     inotify_add_watch_result := inotify_add_watch_result env;
     inotify_reads := inotify_reads env |}.

Definition with_kernel (ifd tfd : Z) (add : Z -> string -> Z) (env : Env) : Env :=
  {| left_panel := left_panel env;
     right_panel := right_panel env;
     get_panel_type := get_panel_type env;
     dynamic_file_list_debounce_sec := dynamic_file_list_debounce_sec env;
     inotify_init1_result := ifd;
     timerfd_create_result := tfd;
     inotify_add_watch_result := add;
     inotify_reads := inotify_reads env |}.

(** One creation record for the watch [w]. *)
Definition created (w : Z) : inotify_event :=
  {| wd := w; mask := IN_CREATE; len := 16 |}.

(** The watcher switched on in [demo_env]: left bound to "/tmp" (watch 1),
    right bound to "/var" (watch 2). *)
Definition demo_enabled : dirwatch :=
  run [(demo_env, enter_set_enabled true)] dirwatch_init.

(** ... and then a creation record for "/tmp" drained. *)
Definition demo_pending : dirwatch :=
  run [(demo_env, enter_set_enabled true);
       (with_reads [[created 1]] demo_env, enter_callback 3)] dirwatch_init.

(** Quiet mode entered, a record drained, then the watcher switched off. *)
Definition demo_quiet_disabled : dirwatch :=
  run [(demo_env, enter_set_enabled true);
       (demo_env, enter_set_quiet true);
       (with_reads [[created 1]] demo_env, enter_callback 3);
       (demo_env, enter_set_enabled false)] dirwatch_init.

(** Quiet mode entered while the watcher is on. *)
Definition demo_quiet : dirwatch :=
  run [(demo_env, enter_set_enabled true);
       (demo_env, enter_set_quiet true)] dirwatch_init.

(** Both panels show "/tmp": the kernel answers both registrations with
    the same watch. *)
Definition demo_shared : Env :=
  with_panels (Some demo_left)
    (Some {| panel_addr := 8192; is_panelized := false;
             cwd_vpath := local_dir "/tmp" |})
    demo_env.

Definition demo_shared_enabled : dirwatch :=
  run [(demo_shared, enter_set_enabled true)] dirwatch_init.

(** A kernel that refuses every watch (EACCES, ENOSPC, ...). *)
Definition demo_watch_refused : Env :=
  with_kernel 3 4 (fun _ _ => -1) demo_env.

(** The watcher switched on while the kernel refuses every watch. *)
Definition demo_refused_enabled : dirwatch :=
  run [(demo_watch_refused, enter_set_enabled true)] dirwatch_init.

(** The right panel has moved on to "/etc". *)
Definition demo_right_moved : Env :=
  with_panels (Some demo_left)
    (Some {| panel_addr := 8192; is_panelized := false;
             cwd_vpath := local_dir "/etc" |})
    demo_env.

(** A kernel that cannot create the timer descriptor. *)
Definition demo_no_timer : Env :=
  with_kernel 3 (-1) demo_add_watch demo_env.

(** A kernel that cannot create the notification descriptor. *)
Definition demo_no_inotify : Env :=
  with_kernel (-1) 4 demo_add_watch demo_env.

(** ** Vocabulary of the further properties *)

(** The calls made while a script runs, entry after entry. *)
Fixpoint run_trace (script : list (Env * entry)) (s : dirwatch) : list call :=
  match script with
  | [] => []
  | (env, e) :: rest =>
      trace_of (run_entry env e) s ++
      run_trace rest (state_after (run_entry env e) s)
  end.

(** Writing the binding (handle and path) of one slot. *)
Definition set_binding (k : slot) (h : Z) (p : option string)
    (s : dirwatch) : dirwatch :=
  match k with
  | slot_left => set_left_path p (set_wd_left h s)
  | slot_right => set_right_path p (set_wd_right h s)
  end.

(** What a slot's panel is eligible for right now. *)
Definition eligible (env : Env) (k : slot) : option string :=
  dirwatch_panel_should_watch env (panel_of env k).

(** The delay [dirwatch_arm_timer] programs. *)
Definition debounce_secs (env : Env) : Z :=
  Z.max 1 (dynamic_file_list_debounce_sec env).

Definition is_repaint (c : call) : bool :=
  match c with
  | repaint_screen => true
  | _ => false
  end.

Definition is_reload (c : call) : bool :=
  match c with
  | panel_reload _ => true
  | _ => false
  end.

Definition count_calls (f : call -> bool) (tr : list call) : nat :=
  length (filter f tr).

(** Calls that create, register, release or close a descriptor. *)
Definition is_descriptor_call (c : call) : bool :=
  match c with
  | inotify_init1 => true
  | timerfd_create => true
  | add_select_channel _ _ => true
  | delete_select_channel _ => true
  | close _ => true
  | _ => false
  end.

(** Adding or removing a watch on the descriptor [fd], with the mask of
    the source when adding. *)
Definition is_watch_call (fd : Z) (c : call) : bool :=
  match c with
  | inotify_add_watch fd' _ m => (fd' =? fd) && (m =? DW_MASK)
  | inotify_rm_watch fd' _ => fd' =? fd
  | _ => false
  end.

(** Every entry except [dirwatch_set_quiet (FALSE)]. *)
Definition not_unquiet (e : entry) : bool :=
  match e with
  | enter_set_quiet false => false
  | _ => true
  end.

(** The entries that run [dirwatch_timer_callback]. *)
Definition is_timer_entry (e : entry) : bool :=
  match e with
  | enter_timer_callback _ => true
  | _ => false
  end.

(** A pending flag that is raised stays raised. *)
Definition pending_kept (s s' : dirwatch) : bool :=
  implb (pending_left s) (pending_left s') &&
  implb (pending_right s) (pending_right s').

(** A world in which the left panel shows something that is not a
    directory listing. *)
Definition demo_left_not_listing : Env :=
  {| left_panel := Some demo_left;
     right_panel := Some demo_right;
     get_panel_type := fun n => if n =? 0 then view_other else view_listing;
     dynamic_file_list_debounce_sec := 0;
     inotify_init1_result := 3;
     timerfd_create_result := 4;
     inotify_add_watch_result := demo_add_watch;
     inotify_reads := [] |}.




(** ** Proof tools *)

Ltac dw_unfold :=
  unfold state_after, trace_of, run_entry, update_block,
    dirwatch_set_enabled, dirwatch_set_quiet, dirwatch_panel_dir_changed,
    dirwatch_timer_callback, dirwatch_apply_pending,
    dirwatch_update_watches, dirwatch_update_watches_left,
    dirwatch_update_watches_right, dirwatch_clear_watches,
    dirwatch_reset_paths, dirwatch_disarm_timer, dirwatch_arm_timer,
    bind, ret, get, modify, emit, when in *.

Ltac dw_case :=
  match goal with
  | |- context [if ?b then _ else _] => destruct b eqn:?
  | |- context [match ?x with Some _ => _ | None => _ end] => destruct x eqn:?
  end; cbn in *.

Ltac dw_arith :=
  repeat match goal with
  | H : (_ <=? _) = true |- _ => apply Z.leb_le in H
  | H : (_ <=? _) = false |- _ => apply Z.leb_gt in H
  | H : (_ <? _) = true |- _ => apply Z.ltb_lt in H
  | H : (_ <? _) = false |- _ => apply Z.ltb_ge in H
  | H : (_ =? _) = true |- _ => apply Z.eqb_eq in H
  | H : (_ =? _) = false |- _ => apply Z.eqb_neq in H
  end.

Ltac dw_done :=
  repeat split; intros;
  repeat match goal with k : slot |- _ => destruct k end;
  cbn in *; dw_arith;
  solve [ reflexivity | apply Z.leb_gt; lia | apply Z.leb_le; lia
        | lia | congruence | auto ].

Ltac dw_inv_close :=
  constructor; cbn in *; intros; dw_arith;
  solve [ lia | congruence | auto | intuition (lia || congruence) ].

(** ** The reachable-state invariant *)

Lemma dirwatch_init_inv : dirwatch_inv dirwatch_init.
Proof. constructor; cbn; intros; try reflexivity; try lia; discriminate. Qed.

(** The drain loop reads until there is no more data, changes no static
    and folds [scan_buffer] over the buffers it was given. *)
Lemma read_events_eq (reads : list (list inotify_event)) :
  forall need s,
    read_events reads need s =
    (drained s reads need, s, repeat (read (inotify_fd s)) (S (length reads))).
Proof.
  induction reads as [|buf rest IH]; intros need s; cbn.
  - reflexivity.
  - unfold bind, get, emit; cbn. rewrite IH. reflexivity.
Qed.

Lemma dirwatch_update_watches_inv (env : Env) (s : dirwatch) :
  dirwatch_inv s -> dirwatch_inv (state_after (dirwatch_update_watches env) s).
Proof.
  intros [H1 H2 H3 H4 H5 H6 H7 H8 H9].
  destruct s as [ifd tfd wl wr lp rp en qu pl pr]; cbn in *.
  dw_unfold; destruct en; cbn; [|constructor; assumption].
  repeat dw_case; dw_inv_close.
Qed.

Lemma state_after_bind {A B : Type} (m : M A) (k : A -> M B) (s : dirwatch) :
  state_after (bind m k) s = state_after (k (fst (fst (m s)))) (state_after m s).
Proof.
  unfold state_after, bind.
  destruct (m s) as [[a s1] t1]; cbn.
  destruct (k a s1) as [[b s2] t2]; reflexivity.
Qed.

Lemma trace_of_bind {A B : Type} (m : M A) (k : A -> M B) (s : dirwatch) :
  trace_of (bind m k) s =
  trace_of m s ++ trace_of (k (fst (fst (m s)))) (state_after m s).
Proof.
  unfold trace_of, state_after, bind.
  destruct (m s) as [[a s1] t1]; cbn.
  destruct (k a s1) as [[b s2] t2]; reflexivity.
Qed.

Lemma dirwatch_set_enabled_inv (env : Env) (b : bool) (s : dirwatch) :
  dirwatch_inv s -> dirwatch_inv (state_after (dirwatch_set_enabled env b) s).
Proof.
  intros [H1 H2 H3 H4 H5 H6 H7 H8 H9].
  destruct s as [ifd tfd wl wr lp rp en qu pl pr]; cbn in *.
  destruct b, en; dw_unfold; cbn;
    try (constructor; assumption);
    repeat dw_case; dw_inv_close.
Qed.

Lemma dirwatch_set_quiet_inv (env : Env) (b : bool) (s : dirwatch) :
  dirwatch_inv s -> dirwatch_inv (state_after (dirwatch_set_quiet env b) s).
Proof.
  intros [H1 H2 H3 H4 H5 H6 H7 H8 H9].
  destruct s as [ifd tfd wl wr lp rp en qu pl pr]; cbn in *.
  destruct en; dw_unfold; cbn; [|constructor; assumption].
  repeat dw_case; dw_inv_close.
Qed.

Lemma dirwatch_panel_dir_changed_inv (env : Env) (p : option WPanel) (s : dirwatch) :
  dirwatch_inv s ->
  dirwatch_inv (state_after (dirwatch_panel_dir_changed env p) s).
Proof.
  intros H. unfold dirwatch_panel_dir_changed.
  rewrite state_after_bind; cbn.
  destruct (negb (watcher_enabled s)); cbn.
  - exact H.
  - apply dirwatch_update_watches_inv. exact H.
Qed.

(** The drain only ever raises pending flags. *)
Lemma dirwatch_callback_frame (env : Env) (fd : Z) (s : dirwatch) :
  let s' := state_after (dirwatch_callback env fd) s in
  inotify_fd s' = inotify_fd s /\ timer_fd s' = timer_fd s /\
  wd_left s' = wd_left s /\ wd_right s' = wd_right s /\
  left_path s' = left_path s /\ right_path s' = right_path s /\
  watcher_enabled s' = watcher_enabled s /\ watcher_quiet s' = watcher_quiet s.
Proof.
  unfold state_after, dirwatch_callback, bind, get, ret; cbn.
  destruct (negb (fd =? inotify_fd s)); cbn; [repeat split|].
  rewrite read_events_eq.
  destruct (drained s (inotify_reads env) (false, false)) as [nl nr].
  destruct s as [ifd tfd wl wr lp rp en qu pl pr]; cbn.
  destruct nl, nr; dw_unfold; cbn; repeat dw_case; repeat split.
Qed.

Lemma dirwatch_callback_inv (env : Env) (fd : Z) (s : dirwatch) :
  dirwatch_inv s -> dirwatch_inv (state_after (dirwatch_callback env fd) s).
Proof.
  intros [H1 H2 H3 H4 H5 H6 H7 H8 H9].
  destruct (dirwatch_callback_frame env fd s)
    as (E1 & E2 & E3 & E4 & E5 & E6 & E7 & E8).
  constructor; rewrite ?E1, ?E2, ?E3, ?E4, ?E5, ?E6, ?E7; assumption.
Qed.

Lemma dirwatch_timer_callback_inv (env : Env) (fd : Z) (s : dirwatch) :
  dirwatch_inv s -> dirwatch_inv (state_after (dirwatch_timer_callback env fd) s).
Proof.
  intros [H1 H2 H3 H4 H5 H6 H7 H8 H9].
  destruct s as [ifd tfd wl wr lp rp en qu pl pr]; cbn in *.
  dw_unfold; cbn.
  repeat dw_case; dw_inv_close.
Qed.

Lemma state_after_bind_ret {A : Type} (m : M A) (s : dirwatch) :
  state_after (_ <- m ;; ret tt) s = state_after m s.
Proof. rewrite state_after_bind. reflexivity. Qed.

Lemma run_entry_inv (env : Env) (e : entry) (s : dirwatch) :
  dirwatch_inv s -> dirwatch_inv (state_after (run_entry env e) s).
Proof.
  destruct e; cbn [run_entry]; rewrite ?state_after_bind_ret.
  - apply dirwatch_set_enabled_inv.
  - apply dirwatch_set_quiet_inv.
  - apply dirwatch_panel_dir_changed_inv.
  - apply dirwatch_callback_inv.
  - apply dirwatch_timer_callback_inv.
Qed.

Lemma reachable_inv (s : dirwatch) : reachable s -> dirwatch_inv s.
Proof.
  induction 1 as [|env e s _ IH _].
  - exact dirwatch_init_inv.
  - apply run_entry_inv. exact IH.
Qed.

Lemma run_reachable (script : list (Env * entry)) :
  forall s, reachable s -> script_ok script = true -> reachable (run script s).
Proof.
  induction script as [|[env e] rest IH]; intros s Hs Hok; cbn in *.
  - exact Hs.
  - apply andb_prop in Hok. destruct Hok as [He Hrest].
    apply IH; [|exact Hrest].
    apply reachable_step; assumption.
Qed.

Lemma run_app (a b : list (Env * entry)) :
  forall s, run (a ++ b) s = run b (run a s).
Proof.
  induction a as [|[env e] a IH]; intros s; cbn.
  - reflexivity.
  - apply IH.
Qed.

Lemma demo_enabled_reachable : reachable demo_enabled.
Proof. apply run_reachable; [apply reachable_init | reflexivity]. Qed.

Lemma demo_pending_reachable : reachable demo_pending.
Proof. apply run_reachable; [apply reachable_init | reflexivity]. Qed.

Lemma demo_quiet_disabled_reachable : reachable demo_quiet_disabled.
Proof. apply run_reachable; [apply reachable_init | reflexivity]. Qed.

(** ** Switching the watcher off *)

(** C1, as the claim states it, fails: a pending flag raised by a drained
    record is still raised after [dirwatch_set_enabled (FALSE)]. *)
Lemma set_enabled_false_keeps_pending_flag :
  reachable demo_pending /\
  pending_of slot_left demo_pending = true /\
  pending_of slot_left
    (state_after (dirwatch_set_enabled demo_env false) demo_pending) = true.
Proof.
  split; [exact demo_pending_reachable|].
  split; reflexivity.
Qed.

(** C1 (amended): after [dirwatch_set_enabled (FALSE)] from any reachable
    state the watcher is disabled, both slots have neither watch handle nor
    path, and neither the inotify descriptor nor the timer descriptor is
    present; the two pending flags are not cleared, they keep the values
    they had. *)
Theorem set_enabled_false_clears_bindings_and_descriptors
    (env : Env) (s : dirwatch) :
  reachable s ->
  let s' := state_after (dirwatch_set_enabled env false) s in
  watcher_enabled s' = false /\
  present (inotify_fd s') = false /\
  present (timer_fd s') = false /\
  (forall k, present (handle_of k s') = false /\ path_of k s' = None) /\
  (forall k, pending_of k s' = pending_of k s).
Proof.
  intros Hr. apply reachable_inv in Hr.
  destruct Hr as [H1 H2 H3 H4 H5 H6 H7 H8 H9].
  destruct s as [ifd tfd wl wr lp rp en qu pl pr]; cbn in *.
  unfold present.
  destruct en; dw_unfold; cbn.
  - specialize (H1 eq_refl). apply Z.leb_le in H1. rewrite H1; cbn.
    repeat dw_case; dw_done.
  - specialize (H2 eq_refl). specialize (H3 eq_refl).
    specialize (H4 eq_refl). specialize (H5 eq_refl).
    specialize (H6 eq_refl). specialize (H7 eq_refl). subst lp rp.
    dw_done.
Qed.

Lemma set_enabled_false_clears_witness :
  reachable demo_pending /\
  let s' := state_after (dirwatch_set_enabled demo_env false) demo_pending in
  watcher_enabled s' = false /\
  present (inotify_fd s') = false /\
  present (timer_fd s') = false /\
  (forall k, present (handle_of k s') = false /\ path_of k s' = None) /\
  (forall k, pending_of k s' = pending_of k demo_pending).
Proof.
  split; [exact demo_pending_reachable|].
  apply (set_enabled_false_clears_bindings_and_descriptors demo_env demo_pending).
  exact demo_pending_reachable.
Defined.

Lemma set_quiet_is_inert_while_disabled_aux (env : Env) (quiet : bool) (s : dirwatch) :
  watcher_enabled s = false ->
  dirwatch_set_quiet env quiet s = (tt, s, []).
Proof.
  intros Hen. unfold dirwatch_set_quiet, bind, get; cbn.
  rewrite Hen; cbn. reflexivity.
Qed.

(** ** Quiet mode *)

(** C10: while the watcher is disabled, [dirwatch_set_quiet] with either
    argument returns at once: the whole state is unchanged (so quiet mode
    is neither entered nor left) and no call is made (nothing is applied). *)
Theorem set_quiet_is_inert_while_disabled (env : Env) (quiet : bool) (s : dirwatch) :
  watcher_enabled s = false ->
  dirwatch_set_quiet env quiet s = (tt, s, []).
Proof. exact (set_quiet_is_inert_while_disabled_aux env quiet s). Qed.

Lemma set_quiet_is_inert_while_disabled_witness :
  watcher_enabled demo_quiet_disabled = false /\
  dirwatch_set_quiet demo_env false demo_quiet_disabled =
    (tt, demo_quiet_disabled, []) /\
  dirwatch_set_quiet demo_env true dirwatch_init = (tt, dirwatch_init, []).
Proof.
  split; [reflexivity|]. split.
  - apply (set_quiet_is_inert_while_disabled demo_env false demo_quiet_disabled).
    reflexivity.
  - apply (set_quiet_is_inert_while_disabled demo_env true dirwatch_init).
    reflexivity.
Defined.

(** What an apply does, call by call. *)
Lemma dirwatch_apply_pending_eq (env : Env) (s : dirwatch) :
  dirwatch_apply_pending env s =
  (tt, pending_cleared s,
   reload_calls env slot_left s ++ reload_calls env slot_right s ++
   repaint_calls s ++ disarm_calls s).
Proof.
  unfold reload_calls, repaint_calls, disarm_calls, pending_cleared, present.
  destruct s as [ifd tfd wl wr lp rp en qu pl pr]; cbn.
  dw_unfold.
  destruct (left_panel env), (right_panel env), pl, pr; cbn;
    destruct (0 <=? tfd); reflexivity.
Qed.

(** A timer expiry in quiet mode changes nothing and applies nothing. *)
Lemma dirwatch_timer_callback_quiet (env : Env) (fd : Z) (s : dirwatch) :
  watcher_quiet s = true ->
  state_after (dirwatch_timer_callback env fd) s = s /\
  nothing_applied (trace_of (dirwatch_timer_callback env fd) s) = true.
Proof.
  intros Hq.
  unfold state_after, trace_of, dirwatch_timer_callback, bind, get, emit, ret; cbn.
  rewrite Hq.
  destruct (negb (fd =? timer_fd s)); cbn; [split; reflexivity|].
  unfold dirwatch_disarm_timer, bind, get, when, emit, ret; cbn.
  destruct (0 <=? timer_fd s); cbn; split; reflexivity.
Qed.

Lemma dirwatch_update_watches_frame (env : Env) (s : dirwatch) :
  let s' := state_after (dirwatch_update_watches env) s in
  watcher_enabled s' = watcher_enabled s /\
  watcher_quiet s' = watcher_quiet s /\
  pending_left s' = pending_left s /\
  pending_right s' = pending_right s /\
  inotify_fd s' = inotify_fd s /\
  timer_fd s' = timer_fd s.
Proof.
  destruct s as [ifd tfd wl wr lp rp en qu pl pr]; cbn.
  dw_unfold; cbn.
  repeat dw_case; repeat split.
Qed.

Lemma dirwatch_set_enabled_quiet (env : Env) (b : bool) (s : dirwatch) :
  watcher_quiet (state_after (dirwatch_set_enabled env b) s) = watcher_quiet s.
Proof.
  destruct s as [ifd tfd wl wr lp rp en qu pl pr]; cbn.
  destruct b, en; dw_unfold; cbn; repeat dw_case; reflexivity.
Qed.

Lemma dirwatch_set_enabled_false_disables (env : Env) (s : dirwatch) :
  watcher_enabled (state_after (dirwatch_set_enabled env false) s) = false.
Proof.
  destruct s as [ifd tfd wl wr lp rp en qu pl pr]; cbn.
  destruct en; dw_unfold; cbn; repeat dw_case; reflexivity.
Qed.

(** Nothing but [dirwatch_set_enabled (TRUE)] wakes a disabled watcher,
    and nothing changes its quiet flag meanwhile. *)
Lemma run_entry_while_disabled (env : Env) (e : entry) (s : dirwatch) :
  not_enable e = true ->
  watcher_enabled s = false ->
  let s' := state_after (run_entry env e) s in
  watcher_enabled s' = false /\ watcher_quiet s' = watcher_quiet s.
Proof.
  intros Hne Hen.
  destruct e as [b|b|p|fd|fd]; cbn [run_entry]; rewrite ?state_after_bind_ret.
  - destruct b; [discriminate|].
    split; [apply dirwatch_set_enabled_false_disables
           | apply dirwatch_set_enabled_quiet].
  - unfold state_after. rewrite set_quiet_is_inert_while_disabled_aux by exact Hen.
    split; [exact Hen | reflexivity].
  - unfold state_after, dirwatch_panel_dir_changed, bind, get; cbn.
    rewrite Hen; cbn. split; [exact Hen | reflexivity].
  - destruct (dirwatch_callback_frame env fd s)
      as (_ & _ & _ & _ & _ & _ & E7 & E8).
    cbn. rewrite E7, E8. split; [exact Hen | reflexivity].
  - destruct s as [ifd tfd wl wr lp rp en qu pl pr]; cbn in *.
    dw_unfold; cbn. repeat dw_case; split; (exact Hen || reflexivity).
Qed.

Lemma run_while_disabled (mid : list (Env * entry)) :
  forall s,
    forallb (fun step => not_enable (snd step)) mid = true ->
    watcher_enabled s = false ->
    watcher_enabled (run mid s) = false /\
    watcher_quiet (run mid s) = watcher_quiet s.
Proof.
  induction mid as [|[env e] mid IH]; intros s Hmid Hen; cbn in *.
  - split; [exact Hen | reflexivity].
  - apply andb_prop in Hmid. destruct Hmid as [He Hmid].
    destruct (run_entry_while_disabled env e s He Hen) as [Hen' Hq'].
    destruct (IH _ Hmid Hen') as [Hen'' Hq''].
    split; [exact Hen'' | congruence].
Qed.

(** C9: [dirwatch_set_enabled] never writes the quiet flag.  From a quiet
    state, switching the watcher off, doing anything but switching it on,
    and then switching it on again ends in a quiet state; a timer expiry
    that follows a drain there changes no pending flag and calls neither
    the reload nor the repaint callback. *)
Theorem quiet_survives_disable_and_enable
    (env_off env_on : Env) (mid : list (Env * entry)) (s : dirwatch) :
  watcher_quiet s = true ->
  forallb (fun step => not_enable (snd step)) mid = true ->
  let s' := run ((env_off, enter_set_enabled false) :: mid ++
                 [(env_on, enter_set_enabled true)]) s in
  watcher_quiet (state_after (dirwatch_set_enabled env_off false) s) = true /\
  watcher_quiet s' = true /\
  forall (env_ev env_t : Env) (fd_ev fd_t : Z),
    let s_ev := state_after (dirwatch_callback env_ev fd_ev) s' in
    state_after (dirwatch_timer_callback env_t fd_t) s_ev = s_ev /\
    nothing_applied (trace_of (dirwatch_timer_callback env_t fd_t) s_ev) = true.
Proof.
  intros Hq Hmid s'.
  assert (Hoff : watcher_quiet (state_after (dirwatch_set_enabled env_off false) s) = true)
    by (rewrite dirwatch_set_enabled_quiet; exact Hq).
  assert (Hq' : watcher_quiet s' = true).
  { subst s'. cbn [run run_entry]. rewrite run_app. cbn [run run_entry].
    rewrite dirwatch_set_enabled_quiet.
    destruct (run_while_disabled mid _ Hmid
                (dirwatch_set_enabled_false_disables env_off s)) as [_ Hk].
    rewrite Hk. exact Hoff. }
  split; [exact Hoff|]. split; [exact Hq'|].
  intros env_ev env_t fd_ev fd_t s_ev.
  apply dirwatch_timer_callback_quiet.
  destruct (dirwatch_callback_frame env_ev fd_ev s')
    as (_ & _ & _ & _ & _ & _ & _ & E8).
  subst s_ev. rewrite E8. exact Hq'.
Qed.

Lemma quiet_survives_disable_and_enable_witness :
  watcher_quiet demo_quiet = true /\
  let s' := run [(demo_env, enter_set_enabled false);
                 (demo_env, enter_set_quiet false);
                 (demo_env, enter_set_enabled true)] demo_quiet in
  watcher_enabled s' = true /\
  watcher_quiet s' = true /\
  let s_ev := state_after
                (dirwatch_callback (with_reads [[created 1]] demo_env) 3) s' in
  pending_left s_ev = true /\
  state_after (dirwatch_timer_callback demo_env 4) s_ev = s_ev /\
  nothing_applied (trace_of (dirwatch_timer_callback demo_env 4) s_ev) = true.
Proof.
  split; [reflexivity|].
  pose proof (quiet_survives_disable_and_enable demo_env demo_env
                [(demo_env, enter_set_quiet false)] demo_quiet
                eq_refl eq_refl) as H.
  cbv zeta in H. destruct H as (_ & Hq & Hdefer).
  cbv zeta.
  split; [reflexivity|]. split; [exact Hq|]. split; [reflexivity|].
  exact (Hdefer (with_reads [[created 1]] demo_env) demo_env 3 4).
Defined.

(** ** The debounce timer *)

(** C5, as the claim states it, fails: the left flag is pending and quiet
    mode is off, yet the expiry calls no reload for the left slot when the
    left panel does not exist; the repaint still happens. *)
Lemma timer_expiry_skips_reload_of_absent_panel :
  reachable demo_pending /\
  pending_of slot_left demo_pending = true /\
  watcher_quiet demo_pending = false /\
  dirwatch_timer_callback (with_panels None (Some demo_right) demo_env)
    (timer_fd demo_pending) demo_pending =
  (0, pending_cleared demo_pending,
   [read 4; repaint_screen; timerfd_settime 4 0]).
Proof.
  split; [exact demo_pending_reachable|].
  repeat split.
Qed.

(** C5 (amended): on expiry of the timer (the callback runs for the
    timer descriptor), in quiet mode the timer is disarmed and the state,
    pending flags included, is unchanged; otherwise every slot whose flag
    is pending and whose panel exists gets exactly one reload call (a slot
    without a panel gets none), the repaint callback is called exactly once
    if a flag was pending and not at all otherwise, both pending flags are
    cleared and the timer is disarmed. *)
Theorem timer_expiry_defers_or_applies (env : Env) (fd : Z) (s : dirwatch) :
  fd = timer_fd s ->
  0 <= timer_fd s ->
  dirwatch_timer_callback env fd s =
  if watcher_quiet s then
    (0, s, [read fd; timerfd_settime fd 0])
  else
    (0, pending_cleared s,
     read fd ::
     reload_calls env slot_left s ++ reload_calls env slot_right s ++
     (if pending_left s || pending_right s then [repaint_screen] else []) ++
     [timerfd_settime fd 0]).
Proof.
  intros Hfd Htimer. subst fd.
  apply Z.leb_le in Htimer.
  unfold dirwatch_timer_callback, bind, get, emit, ret;
    cbn -[dirwatch_apply_pending dirwatch_disarm_timer].
  rewrite Z.eqb_refl; cbn -[dirwatch_apply_pending dirwatch_disarm_timer].
  destruct (watcher_quiet s).
  - unfold dirwatch_disarm_timer, bind, get, when, emit; cbn.
    rewrite Htimer. reflexivity.
  - rewrite dirwatch_apply_pending_eq.
    unfold repaint_calls, disarm_calls, present.
    rewrite Htimer. cbn. rewrite app_nil_r. reflexivity.
Qed.

Lemma timer_expiry_defers_or_applies_witness :
  dirwatch_timer_callback demo_env 4 demo_pending =
    (0, pending_cleared demo_pending,
     [read 4; panel_reload demo_left; repaint_screen; timerfd_settime 4 0]) /\
  dirwatch_timer_callback demo_env 4 (set_watcher_quiet true demo_pending) =
    (0, set_watcher_quiet true demo_pending, [read 4; timerfd_settime 4 0]).
Proof.
  split.
  - apply (timer_expiry_defers_or_applies demo_env 4 demo_pending).
    + reflexivity.
    + cbn. lia.
  - apply (timer_expiry_defers_or_applies demo_env 4
             (set_watcher_quiet true demo_pending)).
    + reflexivity.
    + cbn. lia.
Defined.

(** ** Leaving quiet mode *)

(** C6, as the claim states it, fails: a state can be quiet with a flag
    pending while the watcher is disabled, and there
    [dirwatch_set_quiet (FALSE)] neither leaves quiet mode nor applies. *)
Lemma set_quiet_false_ignored_while_disabled :
  reachable demo_quiet_disabled /\
  watcher_quiet demo_quiet_disabled = true /\
  pending_of slot_left demo_quiet_disabled = true /\
  dirwatch_set_quiet demo_env false demo_quiet_disabled =
    (tt, demo_quiet_disabled, []).
Proof.
  split; [exact demo_quiet_disabled_reachable|].
  repeat split.
Qed.

(** C6 (amended): in every enabled state that is quiet and has a pending
    flag, [dirwatch_set_quiet (FALSE)] leaves quiet mode and applies within
    the call, with no timer involved: each pending slot whose panel exists
    gets exactly one reload call, the repaint callback is called once, both
    pending flags are cleared and the timer, if there is one, is disarmed.
    [dirwatch_set_quiet] with the value the quiet flag already has is a
    no-op (and while the watcher is disabled every call of it is). *)
Theorem set_quiet_false_applies_at_once (env : Env) (s : dirwatch) :
  watcher_enabled s = true ->
  watcher_quiet s = true ->
  pending_left s || pending_right s = true ->
  dirwatch_set_quiet env false s =
    (tt, pending_cleared (set_watcher_quiet false s),
     reload_calls env slot_left s ++ reload_calls env slot_right s ++
     [repaint_screen] ++ disarm_calls s) /\
  (forall (quiet : bool) (s0 : dirwatch),
     watcher_quiet s0 = quiet -> dirwatch_set_quiet env quiet s0 = (tt, s0, [])).
Proof.
  intros Hen Hq Hp. split.
  - unfold dirwatch_set_quiet, bind, get, modify, when;
      cbn -[dirwatch_apply_pending].
    rewrite Hen, Hq; cbn -[dirwatch_apply_pending].
    rewrite Hp. rewrite dirwatch_apply_pending_eq.
    unfold repaint_calls, reload_calls, disarm_calls; cbn.
    rewrite Hp. reflexivity.
  - intros quiet s0 Hq0.
    unfold dirwatch_set_quiet, bind, get; cbn.
    rewrite Hq0, Bool.eqb_reflx, orb_true_r. reflexivity.
Qed.

Lemma set_quiet_false_applies_at_once_witness :
  let s := set_watcher_quiet true demo_pending in
  watcher_enabled s = true /\
  watcher_quiet s = true /\
  pending_left s || pending_right s = true /\
  dirwatch_set_quiet demo_env false s =
    (tt, pending_cleared demo_pending,
     [panel_reload demo_left; repaint_screen; timerfd_settime 4 0]) /\
  dirwatch_set_quiet demo_env true s = (tt, s, []) /\
  dirwatch_set_quiet demo_env false demo_pending = (tt, demo_pending, []).
Proof.
  cbv zeta.
  destruct (set_quiet_false_applies_at_once demo_env
              (set_watcher_quiet true demo_pending) eq_refl eq_refl eq_refl)
    as [Happly Hnoop].
  split; [reflexivity|]. split; [reflexivity|]. split; [reflexivity|].
  split; [exact Happly|]. split.
  - exact (Hnoop true (set_watcher_quiet true demo_pending) eq_refl).
  - exact (Hnoop false demo_pending eq_refl).
Defined.

(** ** Switching the watcher on *)

(** C7, as the claim states it, fails: when only the timer descriptor
    cannot be created the watcher stays enabled, holds its inotify
    descriptor and registers its watches. *)
Lemma set_enabled_true_without_timer_stays_enabled :
  timerfd_create_result demo_no_timer < 0 /\
  let s' := state_after (dirwatch_set_enabled demo_no_timer true) dirwatch_init in
  watcher_enabled s' = true /\
  inotify_fd s' = 3 /\
  timer_fd s' = -1 /\
  wd_left s' = 1 /\ wd_right s' = 2.
Proof.
  split; [cbn; lia|].
  repeat split.
Qed.

(** C7 (amended): [dirwatch_set_enabled (TRUE)] on a disabled watcher.
    If the inotify descriptor cannot be created the watcher is left
    disabled, without descriptors and bindings, and the only call made is
    the failed [inotify_init1].  If the inotify descriptor is created and
    only the timer descriptor cannot be, the watcher stays enabled with its
    inotify descriptor registered and no timer, and goes on to update the
    watches.  Neither case reports an error. *)
Theorem set_enabled_true_resource_failure (env : Env) (s : dirwatch) :
  reachable s ->
  watcher_enabled s = false ->
  (inotify_init1_result env < 0 ->
     dirwatch_set_enabled env true s =
       (tt, set_inotify_fd (inotify_init1_result env) s, [inotify_init1]) /\
     let s' := state_after (dirwatch_set_enabled env true) s in
     watcher_enabled s' = false /\
     present (inotify_fd s') = false /\ present (timer_fd s') = false /\
     (forall k, present (handle_of k s') = false /\ path_of k s' = None)) /\
  (0 <= inotify_init1_result env -> timerfd_create_result env < 0 ->
     let before_update :=
       set_timer_fd (timerfd_create_result env)
         (set_inotify_fd (inotify_init1_result env)
            (set_watcher_enabled true s)) in
     let s' := state_after (dirwatch_set_enabled env true) s in
     s' = state_after (dirwatch_update_watches env) before_update /\
     trace_of (dirwatch_set_enabled env true) s =
       [inotify_init1;
        add_select_channel (inotify_init1_result env) cb_dirwatch_callback;
        timerfd_create] ++
       trace_of (dirwatch_update_watches env) before_update /\
     watcher_enabled s' = true /\
     inotify_fd s' = inotify_init1_result env /\
     present (timer_fd s') = false).
Proof.
  intros Hr Hen. apply reachable_inv in Hr.
  destruct Hr as [_ H2 H3 H4 H5 H6 H7 _ _].
  specialize (H2 Hen). specialize (H3 Hen). specialize (H4 Hen).
  specialize (H5 Hen). specialize (H6 Hen). specialize (H7 Hen).
  destruct s as [ifd tfd wl wr lp rp en qu pl pr]; cbn in *.
  subst en lp rp.
  apply Z.ltb_lt in H2, H3.
  split.
  - intros Hfail. apply Z.ltb_lt in Hfail.
    unfold state_after, dirwatch_set_enabled, bind, get, modify, emit, when, ret;
      cbn.
    rewrite H2; cbn. rewrite Hfail; cbn.
    unfold present; cbn. dw_arith.
    split; [reflexivity|]. dw_done.
  - intros Hok Hfail.
    pose proof Hok as Hok'. apply Z.ltb_ge in Hok'.
    pose proof Hfail as Hfail'. apply Z.leb_gt in Hfail'.
    set (mid := set_timer_fd _ _).
    pose proof (dirwatch_update_watches_frame env mid) as Hframe.
    assert (Hrun : dirwatch_set_enabled env true
                     {| inotify_fd := ifd; timer_fd := tfd; wd_left := wl;
                        wd_right := wr; left_path := None; right_path := None;
                        watcher_enabled := false; watcher_quiet := qu;
                        pending_left := pl; pending_right := pr |} =
                   (tt, state_after (dirwatch_update_watches env) mid,
                    [inotify_init1;
                     add_select_channel (inotify_init1_result env)
                       cb_dirwatch_callback;
                     timerfd_create] ++
                    trace_of (dirwatch_update_watches env) mid)).
    { unfold state_after, trace_of, dirwatch_set_enabled, bind, get, modify,
        emit, when, ret; cbn -[dirwatch_update_watches].
      rewrite H2; cbn -[dirwatch_update_watches].
      rewrite Hok'; cbn -[dirwatch_update_watches].
      rewrite H3; cbn -[dirwatch_update_watches].
      rewrite Hfail'; cbn -[dirwatch_update_watches].
      subst mid; unfold set_timer_fd, set_inotify_fd, set_watcher_enabled;
        cbn -[dirwatch_update_watches].
      destruct (dirwatch_update_watches env _) as [[[] s2] t2]; reflexivity. }
    cbv zeta in Hframe. destruct Hframe as (F1 & _ & _ & _ & F5 & F6).
    unfold state_after at 1 3 4 5, trace_of at 1. rewrite Hrun. cbn [fst snd].
    repeat split.
    + exact F1.
    + exact F5.
    + unfold present. rewrite F6. subst mid; cbn. exact Hfail'.
Qed.

Lemma set_enabled_true_resource_failure_witness :
  reachable dirwatch_init /\
  watcher_enabled dirwatch_init = false /\
  inotify_init1_result demo_no_inotify < 0 /\
  dirwatch_set_enabled demo_no_inotify true dirwatch_init =
    (tt, set_inotify_fd (-1) dirwatch_init, [inotify_init1]) /\
  0 <= inotify_init1_result demo_no_timer /\
  timerfd_create_result demo_no_timer < 0 /\
  watcher_enabled
    (state_after (dirwatch_set_enabled demo_no_timer true) dirwatch_init) = true.
Proof.
  assert (Hlt : -1 < 0) by lia.
  assert (Hle : 0 <= 3) by lia.
  split; [exact reachable_init|]. split; [reflexivity|].
  split; [exact Hlt|]. split.
  - exact (proj1 (proj1 (set_enabled_true_resource_failure demo_no_inotify
                           dirwatch_init reachable_init eq_refl) Hlt)).
  - split; [exact Hle|]. split; [exact Hlt|].
    pose proof (proj2 (set_enabled_true_resource_failure demo_no_timer
                         dirwatch_init reachable_init eq_refl) Hle Hlt) as H.
    cbv zeta in H. exact (proj1 (proj2 (proj2 H))).
Defined.

(** ** The drain of the notification descriptor *)

Lemma scan_buffer_eq (s : dirwatch) (buf : list inotify_event) :
  forall need,
    scan_buffer s buf need =
    (fst need || mentions (wd_left s) buf, snd need || mentions (wd_right s) buf).
Proof.
  unfold scan_buffer, mentions.
  induction buf as [|ev buf IH]; intros [nl nr]; cbn.
  - rewrite !orb_false_r. reflexivity.
  - rewrite IH; cbn.
    destruct (wd ev =? wd_left s), (wd ev =? wd_right s), nl, nr; reflexivity.
Qed.

Lemma drained_eq (s : dirwatch) (reads : list (list inotify_event)) :
  forall need,
    drained s reads need =
    (fst need || mentions (wd_left s) (concat reads),
     snd need || mentions (wd_right s) (concat reads)).
Proof.
  unfold drained.
  induction reads as [|buf reads IH]; intros [nl nr]; cbn.
  - rewrite !orb_false_r. reflexivity.
  - rewrite scan_buffer_eq, IH; cbn.
    unfold mentions. rewrite !existsb_app, !orb_assoc. reflexivity.
Qed.


Lemma mentions_false (w : Z) (records : list inotify_event) :
  (forall ev, In ev records -> wd ev <> w) -> mentions w records = false.
Proof.
  intros Hall. unfold mentions.
  destruct (existsb (fun ev => wd ev =? w) records) eqn:E; [|reflexivity].
  apply existsb_exists in E. destruct E as (ev & Hin & Hw).
  apply Z.eqb_eq in Hw. exfalso. exact (Hall ev Hin Hw).
Qed.

Lemma dirwatch_callback_pending (env : Env) (s : dirwatch) (k : slot) :
  pending_of k (state_after (dirwatch_callback env (inotify_fd s)) s) =
  pending_of k s || mentions (handle_of k s) (concat (inotify_reads env)).
Proof.
  unfold state_after, dirwatch_callback, bind, get, ret; cbn.
  rewrite Z.eqb_refl; cbn.
  rewrite read_events_eq, drained_eq; cbn.
  destruct s as [ifd tfd wl wr lp rp en qu pl pr], k; cbn;
  destruct (mentions wl (concat (inotify_reads env))),
           (mentions wr (concat (inotify_reads env))), pl, pr; cbn;
    unfold dirwatch_arm_timer, bind, get, emit, ret; cbn;
    repeat dw_case; reflexivity.
Qed.




(** ** The watch registry *)

Lemma demo_refused_enabled_reachable : reachable demo_refused_enabled.
Proof. apply run_reachable; [apply reachable_init | reflexivity]. Qed.

(** In every reachable state a slot that holds a watch handle has a path. *)
Lemma reachable_handle_has_path (s : dirwatch) (k : slot) :
  reachable s -> present (handle_of k s) = true -> path_of k s <> None.
Proof.
  intros Hr Hp. apply reachable_inv in Hr.
  destruct Hr as [_ _ _ _ _ _ _ H8 H9].
  apply Z.leb_le in Hp. destruct k; cbn in *; auto.
Qed.

(** C2, evaluated where the code departs from it: the kernel refuses the
    watch for "/tmp" ([inotify_add_watch] returns -1).  The result is
    stored unchecked and the path is stored with it, so the reachable state
    that results has a path but no handle for the left slot; and because
    the stored path equals the panel's path, the next re-check makes no
    call at all, although this time the kernel would grant the watch. *)
Theorem refused_watch_leaves_path_without_handle :
  reachable demo_refused_enabled /\
  inotify_add_watch_result demo_watch_refused 3 "/tmp" = -1 /\
  present (handle_of slot_left demo_refused_enabled) = false /\
  path_of slot_left demo_refused_enabled = Some "/tmp"%string /\
  inotify_add_watch_result demo_env 3 "/tmp" = 1 /\
  dirwatch_panel_dir_changed demo_env (Some demo_left) demo_refused_enabled =
    (tt, demo_refused_enabled, []).
Proof.
  split; [exact demo_refused_enabled_reachable|].
  repeat split.
Qed.

Lemma update_block_in_sync (env : Env) (k : slot) (s : dirwatch) :
  in_sync env k s = true -> update_block env k s = (tt, s, []).
Proof.
  unfold in_sync, present.
  destruct k; cbn [update_block panel_of path_of handle_of];
    unfold dirwatch_update_watches_left, dirwatch_update_watches_right,
      bind, get, ret; cbn;
    (destruct (dirwatch_panel_should_watch env _) as [path|]; intros Hs;
     apply negb_true_iff in Hs; rewrite Hs; reflexivity).
Qed.

Lemma update_block_makes_in_sync (env : Env) (k : slot) (s : dirwatch) :
  in_sync env k (state_after (update_block env k) s) = true.
Proof.
  unfold in_sync, present, state_after.
  destruct s as [ifd tfd wl wr lp rp en qu pl pr].
  destruct k; cbn [update_block panel_of path_of handle_of];
    unfold dirwatch_update_watches_left, dirwatch_update_watches_right,
      bind, get, ret, when, emit, modify; cbn;
    (destruct (dirwatch_panel_should_watch env _) as [path|]; cbn;
     repeat dw_case; rewrite ?String.eqb_refl; cbn;
     first [ reflexivity
           | match goal with
             | H : ?x = _ |- context [?x] => rewrite H; reflexivity
             end ]).
Qed.

(** A slot's block writes that slot's handle and path and nothing else. *)
Lemma update_block_frame (env : Env) (k : slot) (s : dirwatch) :
  let s' := state_after (update_block env k) s in
  handle_of (other_slot k) s' = handle_of (other_slot k) s /\
  path_of (other_slot k) s' = path_of (other_slot k) s /\
  in_sync env (other_slot k) s' = in_sync env (other_slot k) s.
Proof.
  unfold in_sync, state_after.
  destruct s as [ifd tfd wl wr lp rp en qu pl pr].
  destruct k; cbn [update_block other_slot panel_of path_of handle_of];
    unfold dirwatch_update_watches_left, dirwatch_update_watches_right,
      bind, get, ret, when, emit, modify; cbn;
    (destruct (dirwatch_panel_should_watch env _) as [path|]; cbn;
     repeat dw_case; repeat split).
Qed.

Lemma dirwatch_update_watches_eq (env : Env) (s : dirwatch) :
  dirwatch_update_watches env s =
  if negb (watcher_enabled s) || (inotify_fd s <? 0) then (tt, s, [])
  else (update_block env slot_left ;; update_block env slot_right) s.
Proof.
  unfold dirwatch_update_watches, bind at 1, get; cbn.
  destruct (negb (watcher_enabled s) || (inotify_fd s <? 0)); cbn.
  - reflexivity.
  - destruct ((_ ;; _) s) as [[[] s2] t2]. reflexivity.
Qed.

Lemma same_path_in_sync (env : Env) (k : slot) (path : string) (s : dirwatch) :
  dirwatch_panel_should_watch env (panel_of env k) = Some path ->
  path_of k s = Some path ->
  in_sync env k s = true.
Proof.
  intros He Hp. unfold in_sync. rewrite He, Hp; cbn.
  rewrite String.eqb_refl. reflexivity.
Qed.

(** A slot that is in sync is left alone by the whole update, and the
    calls of the update are those of the other slot's block. *)
Lemma dirwatch_update_watches_keeps_synced_slot
    (env : Env) (k : slot) (s : dirwatch) :
  in_sync env k s = true ->
  handle_of k (state_after (dirwatch_update_watches env) s) = handle_of k s /\
  path_of k (state_after (dirwatch_update_watches env) s) = path_of k s /\
  trace_of (dirwatch_update_watches env) s =
    (if negb (watcher_enabled s) || (inotify_fd s <? 0) then []
     else trace_of (update_block env (other_slot k)) s).
Proof.
  intros Hs.
  unfold state_after at 1 2, trace_of at 1.
  rewrite dirwatch_update_watches_eq.
  destruct (negb (watcher_enabled s) || (inotify_fd s <? 0)); cbn [fst snd].
  - repeat split.
  - change (handle_of k (state_after (update_block env slot_left ;;
                                     update_block env slot_right) s) =
            handle_of k s /\
            path_of k (state_after (update_block env slot_left ;;
                                   update_block env slot_right) s) =
            path_of k s /\
            trace_of (update_block env slot_left ;;
                      update_block env slot_right) s =
            trace_of (update_block env (other_slot k)) s).
    rewrite state_after_bind, trace_of_bind.
    destruct k; cbn [other_slot].
    + pose proof (update_block_in_sync env slot_left s Hs) as HL.
      unfold state_after at 2 4 5, trace_of at 1. rewrite HL. cbn [fst snd app].
      destruct (update_block_frame env slot_right s) as (F1 & F2 & _).
      cbn [other_slot] in F1, F2. repeat split; assumption.
    + destruct (update_block_frame env slot_left s) as (F1 & F2 & F3).
      cbn [other_slot] in F1, F2, F3. rewrite <- F3 in Hs.
      pose proof (update_block_in_sync env slot_right _ Hs) as HR.
      unfold state_after at 1 3, trace_of at 2. rewrite HR. cbn [fst snd].
      rewrite app_nil_r. repeat split; assumption.
Qed.

(** Once the update has run, running it again in the same world finds both
    slots in sync: it changes nothing and calls nothing. *)
Lemma dirwatch_update_watches_idempotent (env : Env) (s0 : dirwatch) :
  dirwatch_update_watches env (state_after (dirwatch_update_watches env) s0) =
  (tt, state_after (dirwatch_update_watches env) s0, []).
Proof.
  pose proof (dirwatch_update_watches_frame env s0) as Hf.
  cbv zeta in Hf. destruct Hf as (Fen & _ & _ & _ & Ffd & _).
  rewrite (dirwatch_update_watches_eq env (state_after _ s0)).
  rewrite Fen, Ffd.
  destruct (negb (watcher_enabled s0) || (inotify_fd s0 <? 0)) eqn:G.
  - reflexivity.
  - assert (Hs1 : state_after (dirwatch_update_watches env) s0 =
                  state_after (update_block env slot_right)
                    (state_after (update_block env slot_left) s0)).
    { unfold state_after at 1. rewrite dirwatch_update_watches_eq, G.
      change (state_after (update_block env slot_left ;;
                           update_block env slot_right) s0 =
              state_after (update_block env slot_right)
                (state_after (update_block env slot_left) s0)).
      rewrite state_after_bind. reflexivity. }
    rewrite Hs1.
    set (sL := state_after (update_block env slot_left) s0).
    set (s1 := state_after (update_block env slot_right) sL).
    assert (HR : in_sync env slot_right s1 = true)
      by apply update_block_makes_in_sync.
    assert (HL : in_sync env slot_left s1 = true).
    { destruct (update_block_frame env slot_right sL) as (_ & _ & F3).
      cbn [other_slot] in F3. subst s1. rewrite F3.
      apply update_block_makes_in_sync. }
    unfold bind. rewrite (update_block_in_sync env slot_left s1 HL).
    rewrite (update_block_in_sync env slot_right s1 HR). reflexivity.
Qed.

(** C4: when a slot's panel is eligible with the very path the slot has
    stored, the slot's block of [dirwatch_update_watches] makes no call (no
    watch is removed, none is added) and changes nothing; the whole update
    leaves the slot's handle and path as they were and its calls are those
    of the other slot.  Hence a second update right after a first one, in
    the same world, makes no call and leaves every handle as it is. *)
Theorem update_watches_same_path_is_noop
    (env : Env) (k : slot) (path : string) (s : dirwatch) :
  dirwatch_panel_should_watch env (panel_of env k) = Some path ->
  path_of k s = Some path ->
  update_block env k s = (tt, s, []) /\
  handle_of k (state_after (dirwatch_update_watches env) s) = handle_of k s /\
  path_of k (state_after (dirwatch_update_watches env) s) = Some path /\
  trace_of (dirwatch_update_watches env) s =
    (if negb (watcher_enabled s) || (inotify_fd s <? 0) then []
     else trace_of (update_block env (other_slot k)) s) /\
  (forall s0,
     let s1 := state_after (dirwatch_update_watches env) s0 in
     dirwatch_update_watches env s1 = (tt, s1, []) /\
     handle_of k (state_after (dirwatch_update_watches env) s1) = handle_of k s1).
Proof.
  intros He Hp.
  pose proof (same_path_in_sync env k path s He Hp) as Hs.
  destruct (dirwatch_update_watches_keeps_synced_slot env k s Hs)
    as (Hh & Hpath & Htr).
  split; [apply update_block_in_sync; exact Hs|].
  split; [exact Hh|]. split; [congruence|]. split; [exact Htr|].
  intros s0 s1. subst s1.
  pose proof (dirwatch_update_watches_idempotent env s0) as Hi.
  split; [exact Hi|].
  unfold state_after at 1. rewrite Hi. reflexivity.
Qed.

Lemma update_watches_same_path_is_noop_witness :
  dirwatch_panel_should_watch demo_right_moved
    (panel_of demo_right_moved slot_left) = Some "/tmp"%string /\
  path_of slot_left demo_enabled = Some "/tmp"%string /\
  update_block demo_right_moved slot_left demo_enabled = (tt, demo_enabled, []) /\
  handle_of slot_left
    (state_after (dirwatch_update_watches demo_right_moved) demo_enabled) = 1 /\
  trace_of (dirwatch_update_watches demo_right_moved) demo_enabled =
    [inotify_rm_watch 3 2; inotify_add_watch 3 "/etc" DW_MASK].
Proof.
  destruct (update_watches_same_path_is_noop demo_right_moved slot_left "/tmp"
              demo_enabled eq_refl eq_refl) as (Hb & Hh & _ & Htr & _).
  split; [reflexivity|]. split; [reflexivity|].
  split; [exact Hb|]. split; [exact Hh|]. exact Htr.
Defined.

(** ** Notification of a directory change *)

(** C3, as the claim states it, fails: the watcher is enabled, the call
    is made for the left panel, and the binding of the right slot changes
    from "/var" (watch 2) to "/etc" (watch 5). *)
Lemma panel_dir_changed_rebinds_other_slot :
  reachable demo_enabled /\
  watcher_enabled demo_enabled = true /\
  handle_of slot_right demo_enabled = 2 /\
  path_of slot_right demo_enabled = Some "/var"%string /\
  let s' := state_after
              (dirwatch_panel_dir_changed demo_right_moved
                 (panel_of demo_right_moved slot_left)) demo_enabled in
  handle_of slot_right s' = 5 /\
  path_of slot_right s' = Some "/etc"%string.
Proof.
  split; [exact demo_enabled_reachable|].
  repeat split.
Qed.

(** C3 (amended): [dirwatch_panel_dir_changed] is a no-op when the
    watcher is disabled; when it is enabled it ignores its argument and
    re-runs [dirwatch_update_watches], that is the block of the left slot
    and then the block of the right slot.  The binding of the slot that
    was not named is unchanged when that slot is in sync with its panel
    (eligible with the stored path, or not eligible and without a handle). *)
Theorem panel_dir_changed_updates_both_slots
    (env : Env) (k : slot) (s : dirwatch) :
  (forall panel,
     dirwatch_panel_dir_changed env panel s =
     if watcher_enabled s then dirwatch_update_watches env s else (tt, s, [])) /\
  (watcher_enabled s = true -> 0 <= inotify_fd s ->
   dirwatch_panel_dir_changed env (panel_of env k) s =
   (update_block env slot_left ;; update_block env slot_right) s) /\
  (in_sync env (other_slot k) s = true ->
   let s' := state_after (dirwatch_panel_dir_changed env (panel_of env k)) s in
   handle_of (other_slot k) s' = handle_of (other_slot k) s /\
   path_of (other_slot k) s' = path_of (other_slot k) s).
Proof.
  assert (Hall : forall panel,
             dirwatch_panel_dir_changed env panel s =
             if watcher_enabled s then dirwatch_update_watches env s
             else (tt, s, [])).
  { intros panel. unfold dirwatch_panel_dir_changed, bind at 1, get;
      cbn -[dirwatch_update_watches].
    destruct (watcher_enabled s); cbn -[dirwatch_update_watches];
      [|reflexivity].
    destruct (dirwatch_update_watches env s) as [[[] s2] t2]. reflexivity. }
  split; [exact Hall|]. split.
  - intros Hen Hfd. rewrite Hall, Hen, dirwatch_update_watches_eq, Hen.
    apply Z.ltb_ge in Hfd. rewrite Hfd. reflexivity.
  - intros Hs s'. subst s'. unfold state_after at 1 2. rewrite Hall.
    destruct (watcher_enabled s); [|split; reflexivity].
    destruct (dirwatch_update_watches_keeps_synced_slot env _ s Hs)
      as (Hh & Hp & _).
    split; assumption.
Qed.

Lemma panel_dir_changed_updates_both_slots_witness :
  watcher_enabled demo_enabled = true /\
  0 <= inotify_fd demo_enabled /\
  in_sync demo_env (other_slot slot_left) demo_enabled = true /\
  dirwatch_panel_dir_changed demo_env (panel_of demo_env slot_left) demo_enabled =
    (update_block demo_env slot_left ;; update_block demo_env slot_right)
      demo_enabled /\
  handle_of slot_right
    (state_after (dirwatch_panel_dir_changed demo_env (panel_of demo_env slot_left))
       demo_enabled) = handle_of slot_right demo_enabled.
Proof.
  assert (Hfd : 0 <= inotify_fd demo_enabled) by (cbn; lia).
  destruct (panel_dir_changed_updates_both_slots demo_env slot_left demo_enabled)
    as (_ & Hboth & Hframe).
  split; [reflexivity|]. split; [exact Hfd|]. split; [reflexivity|].
  split; [exact (Hboth eq_refl Hfd)|].
  exact (proj1 (Hframe eq_refl)).
Defined.

(** * Further properties of dirwatch.c *)

(** ** Eligibility *)

(** X1: [dirwatch_panel_should_watch] answers with a path exactly when
    the panel exists, the layout shows a file listing at the panel's
    position (0 when the pointer is [left_panel], 1 otherwise), the panel is
    not panelized, its directory has a path string and lies on a local file
    system; the path it answers with is that path string. *)
Theorem should_watch_iff (env : Env) (p : option WPanel) (path : string) :
  dirwatch_panel_should_watch env p = Some path <->
  exists w,
    p = Some w /\
    get_panel_type env (if panel_ptr_eqb p (left_panel env) then 0 else 1) =
      view_listing /\
    is_panelized w = false /\
    vfs_path_as_str (cwd_vpath w) = Some path /\
    vfs_file_is_local (cwd_vpath w) = true.
Proof.
  unfold dirwatch_panel_should_watch. split.
  - destruct p as [w|]; [|discriminate].
    destruct (get_panel_type env _) eqn:Ht; cbn; [|discriminate].
    destruct (is_panelized w) eqn:Hz; [discriminate|].
    destruct (vfs_path_as_str (cwd_vpath w)) as [str|] eqn:Hs; [|discriminate].
    destruct (vfs_file_is_local (cwd_vpath w)) eqn:Hl; cbn; [|discriminate].
    intros H. injection H as H. subst str.
    exists w. repeat split; assumption.
  - intros (w & Hp & Ht & Hz & Hs & Hl). subst p.
    rewrite Ht, Hz, Hs, Hl. reflexivity.
Qed.

Lemma should_watch_iff_witness :
  dirwatch_panel_should_watch demo_env (Some demo_left) = Some "/tmp"%string /\
  dirwatch_panel_should_watch demo_left_not_listing (Some demo_left) = None.
Proof.
  split.
  - apply (proj2 (should_watch_iff demo_env (Some demo_left) "/tmp")).
    exists demo_left. repeat split.
  - destruct (dirwatch_panel_should_watch demo_left_not_listing (Some demo_left))
      as [path|] eqn:E; [|reflexivity].
    apply (proj1 (should_watch_iff demo_left_not_listing (Some demo_left) path))
      in E.
    destruct E as (w & _ & Ht & _). cbn in Ht. discriminate Ht.
Defined.

(** ** The debounce timer, armed *)

Lemma dirwatch_arm_timer_eq (env : Env) (s : dirwatch) :
  dirwatch_arm_timer env s =
  (tt, s,
   if present (timer_fd s)
   then [timerfd_settime (timer_fd s) (debounce_secs env)] else []).
Proof.
  unfold dirwatch_arm_timer, bind, get, ret, emit, present, debounce_secs; cbn.
  destruct (Z.ltb_spec (timer_fd s) 0) as [Hlt|Hge].
  - apply Z.leb_gt in Hlt. rewrite Hlt. reflexivity.
  - apply Z.leb_le in Hge. rewrite Hge. cbn.
    destruct (Z.ltb_spec (dynamic_file_list_debounce_sec env) 1).
    + rewrite Z.max_l by lia. reflexivity.
    + rewrite Z.max_r by lia. reflexivity.
Qed.

(** X2: [dirwatch_arm_timer] changes no static; without a timer
    descriptor it makes no call, with one it programs the timer once, with
    the configured debounce seconds raised to 1 when they are smaller.  The
    delay it programs is therefore never 0, the value that disarms. *)
Theorem arm_timer_delay_at_least_one (env : Env) (s : dirwatch) :
  dirwatch_arm_timer env s =
    (tt, s,
     if present (timer_fd s)
     then [timerfd_settime (timer_fd s)
             (Z.max 1 (dynamic_file_list_debounce_sec env))]
     else []) /\
  forall fd secs,
    In (timerfd_settime fd secs) (trace_of (dirwatch_arm_timer env) s) ->
    fd = timer_fd s /\ 1 <= secs /\
    dynamic_file_list_debounce_sec env <= secs.
Proof.
  split; [apply dirwatch_arm_timer_eq|].
  intros fd secs. unfold trace_of. rewrite dirwatch_arm_timer_eq; cbn.
  destruct (present (timer_fd s)); cbn; [|intros []].
  intros [H|[]]. injection H as Hfd Hsecs. subst fd secs.
  unfold debounce_secs. repeat split; lia.
Qed.

Lemma arm_timer_delay_at_least_one_witness :
  dirwatch_arm_timer demo_left_not_listing demo_enabled =
    (tt, demo_enabled, [timerfd_settime 4 1]) /\
  1 <= 1.
Proof.
  split.
  - exact (proj1 (arm_timer_delay_at_least_one demo_left_not_listing demo_enabled)).
  - apply (proj2 (arm_timer_delay_at_least_one demo_left_not_listing demo_enabled)
             4 1).
    left. reflexivity.
Defined.

(** ** The drain and the timer *)

Lemma dirwatch_callback_eq (env : Env) (s : dirwatch) :
  let need := drained s (inotify_reads env) (false, false) in
  let s' := (if snd need then set_pending_right true else fun x => x)
              ((if fst need then set_pending_left true else fun x => x) s) in
  dirwatch_callback env (inotify_fd s) s =
  (0, s',
   repeat (read (inotify_fd s)) (S (length (inotify_reads env))) ++
   (if (pending_left s' || pending_right s') && present (timer_fd s)
    then [timerfd_settime (timer_fd s) (debounce_secs env)] else [])).
Proof.
  cbv zeta.
  unfold dirwatch_callback, bind, get, ret, when, modify;
    cbn -[dirwatch_arm_timer repeat].
  rewrite Z.eqb_refl; cbn -[dirwatch_arm_timer repeat].
  rewrite read_events_eq.
  destruct (drained s (inotify_reads env) (false, false)) as [nl nr].
  destruct s as [ifd tfd wl wr lp rp en qu pl pr].
  destruct nl, nr, pl, pr; cbn -[dirwatch_arm_timer repeat];
    rewrite ?dirwatch_arm_timer_eq; cbn -[repeat];
    destruct (present tfd); cbn -[repeat]; rewrite ?app_nil_r; reflexivity.
Qed.

(** X3: one run of the drain on the inotify descriptor reads once more
    than there are buffers with data, and after all the reads programs the
    timer at most once: exactly when a pending flag is raised afterwards
    (newly or from before) and a timer descriptor exists. *)
Theorem dirwatch_callback_arms_at_most_once (env : Env) (s : dirwatch) :
  let s' := state_after (dirwatch_callback env (inotify_fd s)) s in
  trace_of (dirwatch_callback env (inotify_fd s)) s =
    repeat (read (inotify_fd s)) (S (length (inotify_reads env))) ++
    (if (pending_left s' || pending_right s') && present (timer_fd s)
     then [timerfd_settime (timer_fd s)
             (Z.max 1 (dynamic_file_list_debounce_sec env))]
     else []).
Proof.
  cbv zeta. unfold state_after, trace_of.
  pose proof (dirwatch_callback_eq env s) as H. cbv zeta in H.
  rewrite H. reflexivity.
Qed.

Lemma dirwatch_callback_arms_at_most_once_witness :
  trace_of (dirwatch_callback
              (with_reads [[created 1; created 1]; [created 1]] demo_env) 3)
    demo_enabled =
  [read 3; read 3; read 3; timerfd_settime 4 2].
Proof.
  exact (dirwatch_callback_arms_at_most_once
           (with_reads [[created 1; created 1]; [created 1]] demo_env)
           demo_enabled).
Defined.

(** ** Descriptors over the life of the watcher *)

(** X4: in every reachable state the watcher is enabled exactly when it
    holds an inotify descriptor; a timer descriptor, a watch handle or a
    stored path exist only while it is enabled; and a slot that holds a
    watch handle also holds a path. *)
Theorem reachable_descriptor_discipline (s : dirwatch) :
  reachable s ->
  watcher_enabled s = present (inotify_fd s) /\
  (present (timer_fd s) = true -> watcher_enabled s = true) /\
  (forall k, present (handle_of k s) = true ->
             watcher_enabled s = true /\ path_of k s <> None) /\
  (forall k, path_of k s <> None -> watcher_enabled s = true).
Proof.
  intros Hr. apply reachable_inv in Hr.
  destruct Hr as [H1 H2 H3 H4 H5 H6 H7 H8 H9].
  unfold present.
  destruct (watcher_enabled s) eqn:Hen.
  - specialize (H1 eq_refl). apply Z.leb_le in H1.
    split; [symmetry; exact H1|].
    split; [reflexivity|]. split.
    + intros k Hk. apply Z.leb_le in Hk.
      split; [reflexivity|]. destruct k; cbn in *; auto.
    + reflexivity.
  - specialize (H2 eq_refl). specialize (H3 eq_refl).
    specialize (H4 eq_refl). specialize (H5 eq_refl).
    specialize (H6 eq_refl). specialize (H7 eq_refl).
    split; [symmetry; apply Z.leb_gt; exact H2|].
    split; [intros Ht; apply Z.leb_le in Ht; lia|]. split.
    + intros k Hk. apply Z.leb_le in Hk. destruct k; cbn in *; lia.
    + intros k Hk. destruct k; cbn in *; congruence.
Qed.

Lemma reachable_descriptor_discipline_witness :
  reachable demo_refused_enabled /\
  watcher_enabled demo_refused_enabled = present (inotify_fd demo_refused_enabled) /\
  watcher_enabled demo_quiet_disabled = present (inotify_fd demo_quiet_disabled).
Proof.
  split; [exact demo_refused_enabled_reachable|]. split.
  - exact (proj1 (reachable_descriptor_discipline demo_refused_enabled
                    demo_refused_enabled_reachable)).
  - exact (proj1 (reachable_descriptor_discipline demo_quiet_disabled
                    demo_quiet_disabled_reachable)).
Defined.

(** X5: a disabled watcher is inert.  From a reachable disabled state
    every entry other than [dirwatch_set_enabled (TRUE)] (the other two
    public functions and both callbacks, called for any valid descriptor)
    returns with no static changed and no call made. *)
Theorem disabled_watcher_is_inert (env : Env) (e : entry) (s : dirwatch) :
  reachable s ->
  watcher_enabled s = false ->
  entry_ok e = true ->
  not_enable e = true ->
  run_entry env e s = (tt, s, []).
Proof.
  intros Hr Hen Hok Hne. apply reachable_inv in Hr.
  destruct Hr as [_ H2 H3 _ _ _ _ _ _].
  specialize (H2 Hen). specialize (H3 Hen).
  destruct e as [b|b|p|fd|fd]; cbn [run_entry entry_ok] in *.
  - destruct b; [discriminate|].
    unfold dirwatch_set_enabled, bind, get; cbn. rewrite Hen. reflexivity.
  - apply set_quiet_is_inert_while_disabled_aux. exact Hen.
  - unfold dirwatch_panel_dir_changed, bind, get; cbn. rewrite Hen. reflexivity.
  - apply Z.leb_le in Hok.
    assert (Hne' : (fd =? inotify_fd s) = false) by (apply Z.eqb_neq; lia).
    unfold dirwatch_callback, bind, get, ret; cbn. rewrite Hne'. reflexivity.
  - apply Z.leb_le in Hok.
    assert (Hne' : (fd =? timer_fd s) = false) by (apply Z.eqb_neq; lia).
    unfold dirwatch_timer_callback, bind, get, ret; cbn. rewrite Hne'. reflexivity.
Qed.

Lemma disabled_watcher_is_inert_witness :
  reachable demo_quiet_disabled /\
  watcher_enabled demo_quiet_disabled = false /\
  run_entry (with_reads [[created 1]] demo_env) (enter_callback 3)
    demo_quiet_disabled = (tt, demo_quiet_disabled, []) /\
  run_entry demo_env (enter_timer_callback 4) demo_quiet_disabled =
    (tt, demo_quiet_disabled, []).
Proof.
  split; [exact demo_quiet_disabled_reachable|]. split; [reflexivity|]. split.
  - exact (disabled_watcher_is_inert (with_reads [[created 1]] demo_env)
             (enter_callback 3) demo_quiet_disabled
             demo_quiet_disabled_reachable eq_refl eq_refl eq_refl).
  - exact (disabled_watcher_is_inert demo_env (enter_timer_callback 4)
             demo_quiet_disabled
             demo_quiet_disabled_reachable eq_refl eq_refl eq_refl).
Defined.

(** X6: switching off is idempotent.  Whatever the state, once
    [dirwatch_set_enabled (FALSE)] has run, running it again changes no
    static and makes no call (nothing is unregistered or closed twice). *)
Theorem set_enabled_false_twice (env1 env2 : Env) (s : dirwatch) :
  let s1 := state_after (dirwatch_set_enabled env1 false) s in
  dirwatch_set_enabled env2 false s1 = (tt, s1, []).
Proof.
  cbv zeta.
  pose proof (dirwatch_set_enabled_false_disables env1 s) as Hen.
  unfold dirwatch_set_enabled at 1, bind, get; cbn.
  rewrite Hen. reflexivity.
Qed.

(** X7: what switching off releases, and in which order.  From an enabled
    state that holds an inotify descriptor, [dirwatch_set_enabled (FALSE)]
    unregisters the inotify descriptor from the select loop, removes the
    watch of each slot that holds a handle (left, then right), closes the
    inotify descriptor and then, if there is a timer descriptor,
    unregisters and closes it; it makes no other call. *)
Theorem set_enabled_false_teardown (env : Env) (s : dirwatch) :
  watcher_enabled s = true ->
  0 <= inotify_fd s ->
  trace_of (dirwatch_set_enabled env false) s =
    delete_select_channel (inotify_fd s) ::
    (if present (wd_left s)
     then [inotify_rm_watch (inotify_fd s) (wd_left s)] else []) ++
    (if present (wd_right s)
     then [inotify_rm_watch (inotify_fd s) (wd_right s)] else []) ++
    close (inotify_fd s) ::
    (if present (timer_fd s)
     then [delete_select_channel (timer_fd s); close (timer_fd s)] else []).
Proof.
  intros Hen Hfd. apply Z.leb_le in Hfd.
  destruct s as [ifd tfd wl wr lp rp en qu pl pr]; cbn in *. subst en.
  unfold present, trace_of. dw_unfold; cbn.
  rewrite Hfd; cbn. rewrite Hfd; cbn.
  destruct (0 <=? wl), (0 <=? wr), (0 <=? tfd); reflexivity.
Qed.

Lemma set_enabled_false_teardown_witness :
  trace_of (dirwatch_set_enabled demo_env false) demo_shared_enabled =
  [delete_select_channel 3; inotify_rm_watch 3 1; inotify_rm_watch 3 1;
   close 3; delete_select_channel 4; close 4].
Proof.
  apply (set_enabled_false_teardown demo_env demo_shared_enabled).
  - reflexivity.
  - cbn. lia.
Defined.

(** ** The watch registry, slot by slot *)

Lemma update_block_eq (env : Env) (k : slot) (s : dirwatch) :
  update_block env k s =
  match eligible env k with
  | Some path =>
      if path_differs (path_of k s) path then
        (tt,
         set_binding k (inotify_add_watch_result env (inotify_fd s) path)
           (Some path) s,
         (if present (handle_of k s)
          then [inotify_rm_watch (inotify_fd s) (handle_of k s)] else []) ++
         [inotify_add_watch (inotify_fd s) path DW_MASK])
      else (tt, s, [])
  | None =>
      if present (handle_of k s) then
        (tt, set_binding k (-1) None s,
         [inotify_rm_watch (inotify_fd s) (handle_of k s)])
      else (tt, s, [])
  end.
Proof.
  unfold eligible, present.
  destruct s as [ifd tfd wl wr lp rp en qu pl pr].
  destruct k; cbn [update_block panel_of path_of handle_of set_binding];
    unfold dirwatch_update_watches_left, dirwatch_update_watches_right,
      bind, get, ret, when, emit, modify; cbn;
    (destruct (dirwatch_panel_should_watch env _) as [path|]; cbn;
     repeat dw_case; reflexivity).
Qed.

(** X8: the two blocks of [dirwatch_update_watches] are one procedure
    applied to their own slot.  If the panel is eligible and its path is
    not the stored one, the old watch (if the slot holds a handle) is
    removed, then the new path is registered, and the slot stores what
    [inotify_add_watch] returned together with the new path; if the path is
    the stored one nothing happens.  If the panel is not eligible, a slot
    with a handle has its watch removed and its handle and path reset, and
    a slot without a handle is left as it is. *)
Theorem update_block_by_cases (env : Env) (k : slot) (s : dirwatch) :
  update_block env k s =
  match eligible env k with
  | Some path =>
      if path_differs (path_of k s) path then
        (tt,
         set_binding k (inotify_add_watch_result env (inotify_fd s) path)
           (Some path) s,
         (if present (handle_of k s)
          then [inotify_rm_watch (inotify_fd s) (handle_of k s)] else []) ++
         [inotify_add_watch (inotify_fd s) path DW_MASK])
      else (tt, s, [])
  | None =>
      if present (handle_of k s) then
        (tt, set_binding k (-1) None s,
         [inotify_rm_watch (inotify_fd s) (handle_of k s)])
      else (tt, s, [])
  end.
Proof. exact (update_block_eq env k s). Qed.

Lemma in_sync_meaning (env : Env) (k : slot) (s : dirwatch) :
  in_sync env k s = true ->
  match eligible env k with
  | Some path => path_of k s = Some path
  | None => present (handle_of k s) = false
  end.
Proof.
  unfold in_sync, eligible.
  destruct (dirwatch_panel_should_watch env (panel_of env k)) as [path|].
  - unfold path_differs. destruct (path_of k s) as [old|]; cbn; [|discriminate].
    intros H. apply negb_true_iff, negb_false_iff, String.eqb_eq in H.
    congruence.
  - intros H. apply negb_true_iff in H. exact H.
Qed.

Lemma dirwatch_update_watches_in_sync (env : Env) (s : dirwatch) (k : slot) :
  watcher_enabled s = true ->
  0 <= inotify_fd s ->
  in_sync env k (state_after (dirwatch_update_watches env) s) = true.
Proof.
  intros Hen Hfd. apply Z.ltb_ge in Hfd.
  unfold state_after. rewrite dirwatch_update_watches_eq, Hen, Hfd; cbn [negb orb].
  change (in_sync env k
            (state_after (update_block env slot_left ;;
                          update_block env slot_right) s) = true).
  rewrite state_after_bind.
  destruct k.
  - destruct (update_block_frame env slot_right
                (state_after (update_block env slot_left) s)) as (_ & _ & F3).
    cbn [other_slot] in F3. rewrite F3. apply update_block_makes_in_sync.
  - apply update_block_makes_in_sync.
Qed.

(** X9: what the registry update achieves.  Run on an enabled watcher
    that holds an inotify descriptor, [dirwatch_update_watches] leaves each
    slot matching its panel: the slot of an eligible panel stores that
    panel's path, and the slot of a panel that is not eligible holds no
    watch handle. *)
Theorem update_watches_matches_panels (env : Env) (s : dirwatch) (k : slot) :
  watcher_enabled s = true ->
  0 <= inotify_fd s ->
  let s' := state_after (dirwatch_update_watches env) s in
  match eligible env k with
  | Some path => path_of k s' = Some path
  | None => present (handle_of k s') = false
  end.
Proof.
  intros Hen Hfd s'. apply in_sync_meaning.
  apply dirwatch_update_watches_in_sync; assumption.
Qed.

Lemma update_watches_matches_panels_witness :
  path_of slot_right
    (state_after (dirwatch_update_watches demo_right_moved) demo_enabled) =
    Some "/etc"%string /\
  present (handle_of slot_left
             (state_after (dirwatch_update_watches demo_left_not_listing)
                demo_enabled)) = false.
Proof.
  assert (Hfd : 0 <= inotify_fd demo_enabled) by (cbn; lia).
  split.
  - exact (update_watches_matches_panels demo_right_moved demo_enabled
             slot_right eq_refl Hfd).
  - exact (update_watches_matches_panels demo_left_not_listing demo_enabled
             slot_left eq_refl Hfd).
Defined.

Lemma dirwatch_update_watches_calls (env : Env) (s : dirwatch) :
  forallb (is_watch_call (inotify_fd s))
    (trace_of (dirwatch_update_watches env) s) = true.
Proof.
  destruct s as [ifd tfd wl wr lp rp en qu pl pr]; cbn.
  dw_unfold; cbn.
  repeat dw_case; cbn; rewrite ?Z.eqb_refl; reflexivity.
Qed.

(** X10: the registry update touches nothing but the bindings.  It never
    changes the enabled flag, the quiet flag, a pending flag or a
    descriptor, and every call it makes adds (with the mask of the source)
    or removes a watch on the watcher's own inotify descriptor. *)
Theorem update_watches_only_touches_bindings (env : Env) (s : dirwatch) :
  let s' := state_after (dirwatch_update_watches env) s in
  watcher_enabled s' = watcher_enabled s /\
  watcher_quiet s' = watcher_quiet s /\
  pending_left s' = pending_left s /\
  pending_right s' = pending_right s /\
  inotify_fd s' = inotify_fd s /\
  timer_fd s' = timer_fd s /\
  forallb (is_watch_call (inotify_fd s))
    (trace_of (dirwatch_update_watches env) s) = true.
Proof.
  cbv zeta.
  destruct (dirwatch_update_watches_frame env s) as (F1 & F2 & F3 & F4 & F5 & F6).
  repeat (split; [assumption|]).
  apply dirwatch_update_watches_calls.
Qed.

(** ** Switching on *)

(** X11: a successful start.  From a reachable disabled state, when both
    descriptors can be created, [dirwatch_set_enabled (TRUE)] creates the
    inotify descriptor and registers it with [dirwatch_callback], creates
    the timer descriptor and registers it with [dirwatch_timer_callback],
    and then updates the watches; the watcher ends enabled, holding both
    descriptors, with quiet and pending flags as before and each slot
    matching its panel. *)
Theorem set_enabled_true_success (env : Env) (s : dirwatch) :
  reachable s ->
  watcher_enabled s = false ->
  0 <= inotify_init1_result env ->
  0 <= timerfd_create_result env ->
  let before_update :=
    set_timer_fd (timerfd_create_result env)
      (set_inotify_fd (inotify_init1_result env)
         (set_watcher_enabled true s)) in
  let s' := state_after (dirwatch_set_enabled env true) s in
  trace_of (dirwatch_set_enabled env true) s =
    [inotify_init1;
     add_select_channel (inotify_init1_result env) cb_dirwatch_callback;
     timerfd_create;
     add_select_channel (timerfd_create_result env) cb_dirwatch_timer_callback] ++
    trace_of (dirwatch_update_watches env) before_update /\
  s' = state_after (dirwatch_update_watches env) before_update /\
  watcher_enabled s' = true /\
  inotify_fd s' = inotify_init1_result env /\
  timer_fd s' = timerfd_create_result env /\
  watcher_quiet s' = watcher_quiet s /\
  (forall k, pending_of k s' = pending_of k s) /\
  (forall k, match eligible env k with
             | Some path => path_of k s' = Some path
             | None => present (handle_of k s') = false
             end).
Proof.
  intros Hr Hen Hi Ht. apply reachable_inv in Hr.
  destruct Hr as [_ H2 H3 _ _ _ _ _ _].
  specialize (H2 Hen). specialize (H3 Hen).
  apply Z.ltb_lt in H2, H3.
  pose proof Hi as Hi'. apply Z.ltb_ge in Hi'.
  pose proof Ht as Ht'. apply Z.leb_le in Ht'.
  intros mid s'.
  assert (Hrun : dirwatch_set_enabled env true s =
                 (tt, state_after (dirwatch_update_watches env) mid,
                  [inotify_init1;
                   add_select_channel (inotify_init1_result env)
                     cb_dirwatch_callback;
                   timerfd_create;
                   add_select_channel (timerfd_create_result env)
                     cb_dirwatch_timer_callback] ++
                  trace_of (dirwatch_update_watches env) mid)).
  { subst mid.
    destruct s as [ifd tfd wl wr lp rp en qu pl pr]; cbn in *. subst en.
    unfold state_after, trace_of, dirwatch_set_enabled, bind, get, modify,
      emit, when, ret; cbn -[dirwatch_update_watches].
    rewrite H2; cbn -[dirwatch_update_watches].
    rewrite Hi'; cbn -[dirwatch_update_watches].
    rewrite H3; cbn -[dirwatch_update_watches].
    rewrite Ht'; cbn -[dirwatch_update_watches].
    unfold set_timer_fd, set_inotify_fd, set_watcher_enabled;
      cbn -[dirwatch_update_watches].
    destruct (dirwatch_update_watches env _) as [[[] s2] t2]; reflexivity. }
  destruct (dirwatch_update_watches_frame env mid)
    as (F1 & F2 & F3 & F4 & F5 & F6).
  assert (Hs' : s' = state_after (dirwatch_update_watches env) mid)
    by (subst s'; unfold state_after at 1; rewrite Hrun; reflexivity).
  split; [unfold trace_of at 1; rewrite Hrun; reflexivity|].
  split; [exact Hs'|]. rewrite Hs'.
  split; [rewrite F1; reflexivity|].
  split; [rewrite F5; reflexivity|].
  split; [rewrite F6; reflexivity|].
  split; [rewrite F2; reflexivity|].
  split; [intros k; destruct k; cbn; [rewrite F3|rewrite F4]; reflexivity|].
  intros k. apply in_sync_meaning.
  apply dirwatch_update_watches_in_sync; subst mid; cbn; [reflexivity|exact Hi].
Qed.

Lemma set_enabled_true_success_witness :
  reachable demo_quiet_disabled /\
  watcher_enabled demo_quiet_disabled = false /\
  trace_of (dirwatch_set_enabled demo_env true) demo_quiet_disabled =
    [inotify_init1; add_select_channel 3 cb_dirwatch_callback;
     timerfd_create; add_select_channel 4 cb_dirwatch_timer_callback;
     inotify_add_watch 3 "/tmp" DW_MASK; inotify_add_watch 3 "/var" DW_MASK].
Proof.
  assert (H3 : 0 <= 3) by lia. assert (H4 : 0 <= 4) by lia.
  split; [exact demo_quiet_disabled_reachable|]. split; [reflexivity|].
  exact (proj1 (set_enabled_true_success demo_env demo_quiet_disabled
                  demo_quiet_disabled_reachable eq_refl H3 H4)).
Defined.

Lemma watch_calls_are_not_descriptor_calls (fd : Z) (tr : list call) :
  forallb (is_watch_call fd) tr = true ->
  count_calls is_descriptor_call tr = 0%nat.
Proof.
  unfold count_calls.
  induction tr as [|c tr IH]; cbn; [reflexivity|].
  intros H. apply andb_prop in H. destruct H as [Hc Htr].
  destruct c; cbn in *; try discriminate; apply IH; exact Htr.
Qed.

(** X12: on a watcher that is already enabled,
    [dirwatch_set_enabled (TRUE)] is the registry update and nothing more:
    it creates, registers or closes no descriptor (so a timer that could
    not be created at the start is not created now either), and calling it
    a second time in the same world changes nothing and makes no call. *)
Theorem set_enabled_true_when_enabled (env : Env) (s : dirwatch) :
  watcher_enabled s = true ->
  let s' := state_after (dirwatch_set_enabled env true) s in
  dirwatch_set_enabled env true s = dirwatch_update_watches env s /\
  count_calls is_descriptor_call
    (trace_of (dirwatch_set_enabled env true) s) = 0%nat /\
  inotify_fd s' = inotify_fd s /\
  timer_fd s' = timer_fd s /\
  dirwatch_set_enabled env true s' = (tt, s', []).
Proof.
  intros Hen s'.
  assert (Heq : forall x, watcher_enabled x = true ->
                  dirwatch_set_enabled env true x = dirwatch_update_watches env x).
  { intros x Hx.
    unfold dirwatch_set_enabled, bind at 1, get, when;
      cbn -[dirwatch_update_watches].
    rewrite Hx; cbn -[dirwatch_update_watches].
    destruct (dirwatch_update_watches env x) as [[[] s2] t2]. reflexivity. }
  destruct (dirwatch_update_watches_frame env s)
    as (F1 & _ & _ & _ & F5 & F6).
  assert (Hs' : s' = state_after (dirwatch_update_watches env) s)
    by (subst s'; unfold state_after; rewrite (Heq s Hen); reflexivity).
  split; [exact (Heq s Hen)|].
  split.
  { unfold trace_of. rewrite (Heq s Hen).
    apply (watch_calls_are_not_descriptor_calls (inotify_fd s)).
    apply dirwatch_update_watches_calls. }
  rewrite Hs'.
  split; [exact F5|]. split; [exact F6|].
  rewrite Heq by (rewrite F1; exact Hen).
  apply dirwatch_update_watches_idempotent.
Qed.

Lemma set_enabled_true_when_enabled_witness :
  let s := state_after (dirwatch_set_enabled demo_no_timer true) dirwatch_init in
  watcher_enabled s = true /\
  timer_fd s = -1 /\
  timer_fd (state_after (dirwatch_set_enabled demo_env true) s) = -1 /\
  trace_of (dirwatch_set_enabled demo_env true) s = [].
Proof.
  cbv zeta.
  pose proof (set_enabled_true_when_enabled demo_env
                (state_after (dirwatch_set_enabled demo_no_timer true) dirwatch_init)
                eq_refl) as H.
  cbv zeta in H. destruct H as (_ & _ & _ & Ht & _).
  split; [reflexivity|]. split; [reflexivity|].
  split; [exact Ht|]. reflexivity.
Defined.

(** ** What the drain leaves alone *)

Lemma implb_refl (b : bool) : implb b b = true.
Proof. destruct b; reflexivity. Qed.

(** X13: the drain changes nothing but the pending flags and only ever
    raises them: whatever descriptor it is called for and whatever it
    reads, descriptors, bindings, the enabled flag and the quiet flag are
    as before, a flag that was pending is still pending, and no reload or
    repaint is called. *)
Theorem drain_only_raises_pending (env : Env) (fd : Z) (s : dirwatch) :
  let s' := state_after (dirwatch_callback env fd) s in
  inotify_fd s' = inotify_fd s /\ timer_fd s' = timer_fd s /\
  (forall k, handle_of k s' = handle_of k s /\ path_of k s' = path_of k s) /\
  watcher_enabled s' = watcher_enabled s /\
  watcher_quiet s' = watcher_quiet s /\
  pending_kept s s' = true /\
  nothing_applied (trace_of (dirwatch_callback env fd) s) = true.
Proof.
  cbv zeta.
  destruct (dirwatch_callback_frame env fd s)
    as (E1 & E2 & E3 & E4 & E5 & E6 & E7 & E8).
  split; [exact E1|]. split; [exact E2|].
  split; [intros k; destruct k; cbn; split; assumption|].
  split; [exact E7|]. split; [exact E8|].
  destruct (Z.eqb_spec fd (inotify_fd s)) as [Heq|Hne].
  - subst fd. split.
    + unfold pending_kept.
      rewrite (dirwatch_callback_pending env s slot_left : pending_left _ = _).
      rewrite (dirwatch_callback_pending env s slot_right : pending_right _ = _).
      cbn. destruct (pending_left s), (pending_right s); reflexivity.
    + unfold trace_of.
      pose proof (dirwatch_callback_eq env s) as H. cbv zeta in H. rewrite H.
      cbn [snd]. unfold nothing_applied. rewrite forallb_app.
      apply andb_true_intro. split.
      * apply forallb_forall. intros c Hc.
        apply repeat_spec in Hc. subst c. reflexivity.
      * destruct (_ && _); reflexivity.
  - apply Z.eqb_neq in Hne.
    unfold state_after, trace_of, dirwatch_callback, bind, get, ret; cbn.
    rewrite Hne; cbn. unfold pending_kept. rewrite !implb_refl.
    split; reflexivity.
Qed.

Lemma drain_only_raises_pending_witness :
  let s' := state_after
              (dirwatch_callback (with_reads [[created 2]] demo_env) 3)
              demo_pending in
  pending_left s' = true /\ pending_right s' = true /\
  pending_kept demo_pending s' = true.
Proof.
  cbv zeta.
  pose proof (drain_only_raises_pending (with_reads [[created 2]] demo_env) 3
                demo_pending) as H.
  cbv zeta in H. destruct H as (_ & _ & _ & _ & _ & Hk & _).
  split; [reflexivity|]. split; [reflexivity|]. exact Hk.
Defined.

Lemma drain_only_raises_pending_aux (env : Env) (fd : Z) (s : dirwatch) :
  let s' := state_after (dirwatch_callback env fd) s in
  watcher_quiet s' = watcher_quiet s /\
  pending_kept s s' = true /\
  nothing_applied (trace_of (dirwatch_callback env fd) s) = true.
Proof.
  cbv zeta.
  destruct (dirwatch_callback_frame env fd s)
    as (_ & _ & _ & _ & _ & _ & _ & E8).
  split; [exact E8|].
  destruct (Z.eqb_spec fd (inotify_fd s)) as [Heq|Hne].
  - subst fd. split.
    + unfold pending_kept.
      rewrite (dirwatch_callback_pending env s slot_left : pending_left _ = _).
      rewrite (dirwatch_callback_pending env s slot_right : pending_right _ = _).
      cbn. destruct (pending_left s), (pending_right s); reflexivity.
    + unfold trace_of.
      pose proof (dirwatch_callback_eq env s) as H. cbv zeta in H. rewrite H.
      cbn [snd]. unfold nothing_applied. rewrite forallb_app.
      apply andb_true_intro. split.
      * apply forallb_forall. intros c Hc.
        apply repeat_spec in Hc. subst c. reflexivity.
      * destruct (_ && _); reflexivity.
  - apply Z.eqb_neq in Hne.
    unfold state_after, trace_of, dirwatch_callback, bind, get, ret; cbn.
    rewrite Hne; cbn. unfold pending_kept. rewrite !implb_refl.
    split; reflexivity.
Qed.

(** ** Who reloads and repaints *)

Lemma dirwatch_timer_callback_eq (env : Env) (fd : Z) (s : dirwatch) :
  dirwatch_timer_callback env fd s =
  if negb (fd =? timer_fd s) then (0, s, [])
  else if watcher_quiet s then (0, s, read (timer_fd s) :: disarm_calls s)
  else (0, pending_cleared s,
        read (timer_fd s) ::
        reload_calls env slot_left s ++ reload_calls env slot_right s ++
        repaint_calls s ++ disarm_calls s).
Proof.
  unfold dirwatch_timer_callback, bind, get, emit, ret;
    cbn -[dirwatch_apply_pending dirwatch_disarm_timer].
  destruct (negb (fd =? timer_fd s));
    cbn -[dirwatch_apply_pending dirwatch_disarm_timer]; [reflexivity|].
  destruct (watcher_quiet s).
  - unfold dirwatch_disarm_timer, disarm_calls, present, bind, get, when, emit;
      cbn.
    destruct (0 <=? timer_fd s); reflexivity.
  - rewrite dirwatch_apply_pending_eq. rewrite app_nil_r. reflexivity.
Qed.

Lemma dirwatch_set_quiet_eq (env : Env) (quiet : bool) (s : dirwatch) :
  dirwatch_set_quiet env quiet s =
  if negb (watcher_enabled s) || Bool.eqb (watcher_quiet s) quiet then (tt, s, [])
  else if negb quiet && (pending_left s || pending_right s) then
    (tt, pending_cleared (set_watcher_quiet quiet s),
     reload_calls env slot_left s ++ reload_calls env slot_right s ++
     repaint_calls s ++ disarm_calls s)
  else (tt, set_watcher_quiet quiet s, []).
Proof.
  unfold dirwatch_set_quiet, bind, get, modify, when;
    cbn -[dirwatch_apply_pending].
  destruct (negb (watcher_enabled s) || Bool.eqb (watcher_quiet s) quiet);
    cbn -[dirwatch_apply_pending]; [reflexivity|].
  destruct (negb quiet && (pending_left s || pending_right s));
    cbn -[dirwatch_apply_pending]; [|reflexivity].
  rewrite dirwatch_apply_pending_eq. reflexivity.
Qed.

Lemma disarm_calls_not_applied (s : dirwatch) :
  nothing_applied (disarm_calls s) = true.
Proof. unfold disarm_calls. destruct (present (timer_fd s)); reflexivity. Qed.

Lemma watch_calls_not_applied (fd : Z) (tr : list call) :
  forallb (is_watch_call fd) tr = true -> nothing_applied tr = true.
Proof.
  unfold nothing_applied.
  induction tr as [|c tr IH]; cbn; [reflexivity|].
  intros H. apply andb_prop in H. destruct H as [Hc Htr].
  rewrite (IH Htr). destruct c; cbn in *; try discriminate; reflexivity.
Qed.

Lemma dirwatch_set_enabled_keeps_flags (env : Env) (b : bool) (s : dirwatch) :
  let s' := state_after (dirwatch_set_enabled env b) s in
  pending_left s' = pending_left s /\ pending_right s' = pending_right s /\
  nothing_applied (trace_of (dirwatch_set_enabled env b) s) = true.
Proof.
  destruct s as [ifd tfd wl wr lp rp en qu pl pr]; cbn.
  destruct b, en; dw_unfold; cbn; repeat dw_case; repeat split.
Qed.

Lemma pending_kept_refl (s : dirwatch) : pending_kept s s = true.
Proof. unfold pending_kept. rewrite !implb_refl. reflexivity. Qed.

Lemma pending_kept_same (s s' : dirwatch) :
  pending_left s' = pending_left s -> pending_right s' = pending_right s ->
  pending_kept s s' = true.
Proof.
  intros Hl Hr. unfold pending_kept. rewrite Hl, Hr, !implb_refl. reflexivity.
Qed.

Lemma pending_kept_trans (a b c : dirwatch) :
  pending_kept a b = true -> pending_kept b c = true -> pending_kept a c = true.
Proof.
  unfold pending_kept.
  destruct (pending_left a), (pending_left b), (pending_left c),
           (pending_right a), (pending_right b), (pending_right c);
    cbn; intros; congruence.
Qed.

(** One entry that neither is [dirwatch_set_quiet (FALSE)] nor a timer
    expiry outside quiet mode: nothing is applied, no flag is lowered, and
    quiet mode, if on, stays on. *)
Lemma run_entry_applies_nothing (env : Env) (e : entry) (s : dirwatch) :
  not_unquiet e = true ->
  watcher_quiet s = true \/ is_timer_entry e = false ->
  let s' := state_after (run_entry env e) s in
  nothing_applied (trace_of (run_entry env e) s) = true /\
  pending_kept s s' = true /\
  (watcher_quiet s = true -> watcher_quiet s' = true).
Proof.
  intros Hnu Hor.
  destruct e as [b|b|p|fd|fd]; cbn [run_entry not_unquiet is_timer_entry] in *.
  - destruct (dirwatch_set_enabled_keeps_flags env b s) as (Hl & Hr & Hn).
    split; [exact Hn|]. split; [apply pending_kept_same; assumption|].
    intros Hq. rewrite dirwatch_set_enabled_quiet. exact Hq.
  - destruct b; [|discriminate].
    unfold state_after, trace_of. rewrite dirwatch_set_quiet_eq.
    destruct (negb (watcher_enabled s) || Bool.eqb (watcher_quiet s) true);
      cbn; (split; [reflexivity|];
            split; [apply pending_kept_same; reflexivity|]);
      [tauto|reflexivity].
  - unfold state_after, trace_of, dirwatch_panel_dir_changed, bind at 1 2, get;
      cbn -[dirwatch_update_watches].
    destruct (negb (watcher_enabled s)); cbn -[dirwatch_update_watches].
    + split; [reflexivity|]. split; [apply pending_kept_refl|tauto].
    + destruct (dirwatch_update_watches_frame env s)
        as (_ & F2 & F3 & F4 & _ & _).
      pose proof (dirwatch_update_watches_calls env s) as Hc.
      unfold state_after, trace_of in *.
      destruct (dirwatch_update_watches env s) as [[[] s2] t2]; cbn in *.
      split; [apply (watch_calls_not_applied (inotify_fd s)); exact Hc|].
      split; [apply pending_kept_same; assumption|].
      intros Hq. congruence.
  - pose proof (drain_only_raises_pending_aux env fd s) as H.
    cbv zeta in H. destruct H as (Hq & Hk & Hn).
    unfold state_after, trace_of in *.
    unfold bind. destruct (dirwatch_callback env fd s) as [[v s2] t2]; cbn in *.
    rewrite app_nil_r.
    split; [exact Hn|]. split; [exact Hk|]. intros Hq'. congruence.
  - destruct Hor as [Hq|Hf]; [|discriminate].
    unfold state_after, trace_of, bind. rewrite dirwatch_timer_callback_eq.
    destruct (negb (fd =? timer_fd s)); cbn.
    + split; [reflexivity|]. split; [apply pending_kept_refl|tauto].
    + rewrite Hq; cbn. rewrite app_nil_r.
      split; [apply disarm_calls_not_applied|].
      split; [apply pending_kept_refl|tauto].
Qed.

(** X14: only a timer expiry and [dirwatch_set_quiet (FALSE)] ever reload
    a panel or repaint the screen.  Every other entry (switching on or
    off, entering quiet mode, a directory-change notification, the drain),
    from any state, calls neither and lowers no pending flag. *)
Theorem only_expiry_and_unquiet_apply (env : Env) (e : entry) (s : dirwatch) :
  is_timer_entry e = false ->
  not_unquiet e = true ->
  nothing_applied (trace_of (run_entry env e) s) = true /\
  pending_kept s (state_after (run_entry env e) s) = true.
Proof.
  intros Ht Hnu.
  destruct (run_entry_applies_nothing env e s Hnu (or_intror Ht))
    as (Hn & Hk & _).
  split; assumption.
Qed.

Lemma only_expiry_and_unquiet_apply_witness :
  nothing_applied
    (trace_of (run_entry demo_env (enter_set_enabled false)) demo_pending) = true /\
  pending_kept demo_pending
    (state_after (run_entry demo_env (enter_set_enabled false)) demo_pending) = true.
Proof.
  exact (only_expiry_and_unquiet_apply demo_env (enter_set_enabled false)
           demo_pending eq_refl eq_refl).
Defined.

(** X15: quiet mode accumulates.  Starting in quiet mode, over any
    sequence of entries that contains no [dirwatch_set_quiet (FALSE)]
    (drains, timer expiries, notifications, switching off and on, in any
    worlds), no reload and no repaint is ever called, no pending flag is
    lowered, and the watcher is still in quiet mode at the end. *)
Theorem quiet_mode_accumulates (script : list (Env * entry)) (s : dirwatch) :
  watcher_quiet s = true ->
  forallb (fun step => not_unquiet (snd step)) script = true ->
  nothing_applied (run_trace script s) = true /\
  pending_kept s (run script s) = true /\
  watcher_quiet (run script s) = true.
Proof.
  revert s.
  induction script as [|[env e] rest IH]; intros s Hq Hall; cbn in *.
  - split; [reflexivity|]. split; [apply pending_kept_refl|exact Hq].
  - apply andb_prop in Hall. destruct Hall as [He Hrest].
    destruct (run_entry_applies_nothing env e s He (or_introl Hq))
      as (Hn & Hk & Hq').
    destruct (IH _ (Hq' Hq) Hrest) as (Hn2 & Hk2 & Hq2).
    split.
    + unfold nothing_applied in *. rewrite forallb_app, Hn, Hn2. reflexivity.
    + split; [exact (pending_kept_trans _ _ _ Hk Hk2)|exact Hq2].
Qed.

Lemma quiet_mode_accumulates_witness :
  let script :=
    [(with_reads [[created 1]] demo_env, enter_callback 3);
     (demo_env, enter_timer_callback 4);
     (with_reads [[created 2]] demo_env, enter_callback 3);
     (demo_env, enter_timer_callback 4)] in
  watcher_quiet demo_quiet = true /\
  nothing_applied (run_trace script demo_quiet) = true /\
  pending_left (run script demo_quiet) = true /\
  pending_right (run script demo_quiet) = true.
Proof.
  cbv zeta. split; [reflexivity|].
  split; [|split; reflexivity].
  exact (proj1 (quiet_mode_accumulates
                  [(with_reads [[created 1]] demo_env, enter_callback 3);
                   (demo_env, enter_timer_callback 4);
                   (with_reads [[created 2]] demo_env, enter_callback 3);
                   (demo_env, enter_timer_callback 4)]
                  demo_quiet eq_refl eq_refl)).
Defined.

(** ** A debounce cycle *)

Lemma pending_cleared_after_drain (env : Env) (s : dirwatch) :
  pending_cleared (state_after (dirwatch_callback env (inotify_fd s)) s) =
  pending_cleared s.
Proof.
  unfold state_after.
  pose proof (dirwatch_callback_eq env s) as H. cbv zeta in H. rewrite H.
  cbn [fst snd].
  destruct (drained s (inotify_reads env) (false, false)) as [nl nr].
  destruct s as [ifd tfd wl wr lp rp en qu pl pr].
  destruct nl, nr; reflexivity.
Qed.

(** X16: a whole debounce cycle outside quiet mode.  After a drain, the
    expiry of the timer reads the timer, reloads each slot that was pending
    before the drain or whose handle one of the drained records carries
    (once, however many records there were, and only if its panel exists),
    repaints once if some slot was pending, and disarms the timer; the
    statics are then what they were before the drain with both pending
    flags cleared. *)
Theorem drain_then_expiry (env_ev env_t : Env) (s : dirwatch) :
  watcher_quiet s = false ->
  0 <= timer_fd s ->
  let records := concat (inotify_reads env_ev) in
  let s1 := state_after (dirwatch_callback env_ev (inotify_fd s)) s in
  (forall k,
     pending_of k s1 = pending_of k s || mentions (handle_of k s) records) /\
  dirwatch_timer_callback env_t (timer_fd s) s1 =
    (0, pending_cleared s,
     read (timer_fd s) ::
     reload_calls env_t slot_left s1 ++ reload_calls env_t slot_right s1 ++
     (if pending_left s1 || pending_right s1 then [repaint_screen] else []) ++
     [timerfd_settime (timer_fd s) 0]).
Proof.
  intros Hq Ht records s1.
  split; [intros k; apply dirwatch_callback_pending|].
  destruct (dirwatch_callback_frame env_ev (inotify_fd s) s)
    as (_ & E2 & _ & _ & _ & _ & _ & E8).
  fold s1 in E2, E8.
  rewrite dirwatch_timer_callback_eq.
  rewrite E2, E8, Hq, Z.eqb_refl. cbn [negb].
  subst s1. rewrite pending_cleared_after_drain.
  unfold disarm_calls, repaint_calls, present. rewrite E2.
  apply Z.leb_le in Ht. rewrite Ht. reflexivity.
Qed.

Lemma drain_then_expiry_witness :
  dirwatch_timer_callback demo_env 4
    (state_after
       (dirwatch_callback (with_reads [[created 1; created 1]; [created 1]] demo_env) 3)
       demo_enabled) =
  (0, demo_enabled,
   [read 4; panel_reload demo_left; repaint_screen; timerfd_settime 4 0]).
Proof.
  assert (Ht : 0 <= timer_fd demo_enabled) by (cbn; lia).
  exact (proj2 (drain_then_expiry
                  (with_reads [[created 1; created 1]; [created 1]] demo_env)
                  demo_env demo_enabled eq_refl Ht)).
Defined.

(** X17: an expiry applies once.  Outside quiet mode, after the timer
    callback has run for the timer descriptor both pending flags are
    cleared, so a further expiry (until a drain raises a flag again)
    reloads nothing, repaints nothing and changes no static. *)
Theorem expiry_applies_once (env env2 : Env) (fd2 : Z) (s : dirwatch) :
  watcher_quiet s = false ->
  let s1 := state_after (dirwatch_timer_callback env (timer_fd s)) s in
  s1 = pending_cleared s /\
  state_after (dirwatch_timer_callback env2 fd2) s1 = s1 /\
  nothing_applied (trace_of (dirwatch_timer_callback env2 fd2) s1) = true.
Proof.
  intros Hq s1.
  assert (Hs1 : s1 = pending_cleared s).
  { subst s1. unfold state_after. rewrite dirwatch_timer_callback_eq.
    rewrite Z.eqb_refl, Hq. reflexivity. }
  split; [exact Hs1|]. rewrite Hs1.
  unfold state_after, trace_of. rewrite dirwatch_timer_callback_eq.
  destruct s as [ifd tfd wl wr lp rp en qu pl pr]; cbn in *. subst qu.
  destruct (negb (fd2 =? tfd)); cbn; [split; reflexivity|].
  unfold reload_calls, disarm_calls, present; cbn.
  destruct (left_panel env2), (right_panel env2), (0 <=? tfd);
    split; reflexivity.
Qed.

Lemma expiry_applies_once_witness :
  let s1 := state_after (dirwatch_timer_callback demo_env 4) demo_pending in
  pending_left demo_pending = true /\
  s1 = pending_cleared demo_pending /\
  trace_of (dirwatch_timer_callback demo_env 4) s1 =
    [read 4; timerfd_settime 4 0].
Proof.
  cbv zeta.
  split; [reflexivity|]. split; [|reflexivity].
  exact (proj1 (expiry_applies_once demo_env demo_env 4 demo_pending eq_refl)).
Defined.

(** X18: a slot whose panel stopped being eligible is no longer flagged.
    After [dirwatch_update_watches] has run on an enabled watcher for a
    panel that is not eligible, the slot holds no handle, and a drain whose
    records all carry real (non-negative) watch identifiers leaves the
    slot's pending flag as it was. *)
Theorem ineligible_slot_is_not_flagged
    (env env_ev : Env) (k : slot) (s : dirwatch) :
  watcher_enabled s = true ->
  0 <= inotify_fd s ->
  eligible env k = None ->
  (forall ev, In ev (concat (inotify_reads env_ev)) -> 0 <= wd ev) ->
  let s1 := state_after (dirwatch_update_watches env) s in
  present (handle_of k s1) = false /\
  pending_of k (state_after (dirwatch_callback env_ev (inotify_fd s1)) s1) =
    pending_of k s1.
Proof.
  intros Hen Hfd Hel Hreal s1.
  pose proof (in_sync_meaning env k s1
                (dirwatch_update_watches_in_sync env s k Hen Hfd)) as Hs.
  rewrite Hel in Hs.
  split; [exact Hs|].
  rewrite dirwatch_callback_pending.
  rewrite mentions_false; [apply orb_false_r|].
  intros ev Hin. specialize (Hreal ev Hin).
  apply Z.leb_gt in Hs. lia.
Qed.

Lemma ineligible_slot_is_not_flagged_witness :
  eligible demo_left_not_listing slot_left = None /\
  let s1 := state_after (dirwatch_update_watches demo_left_not_listing)
              demo_enabled in
  handle_of slot_left demo_enabled = 1 /\
  present (handle_of slot_left s1) = false /\
  pending_of slot_left
    (state_after (dirwatch_callback (with_reads [[created 1]] demo_env)
                    (inotify_fd s1)) s1) = pending_of slot_left s1.
Proof.
  assert (Hfd : 0 <= inotify_fd demo_enabled) by (cbn; lia).
  assert (Hreal : forall ev,
             In ev (concat (inotify_reads (with_reads [[created 1]] demo_env))) ->
             0 <= wd ev).
  { intros ev [Hev|[]]. subst ev. cbn. lia. }
  split; [reflexivity|]. cbv zeta. split; [reflexivity|].
  exact (ineligible_slot_is_not_flagged demo_left_not_listing
           (with_reads [[created 1]] demo_env) slot_left demo_enabled
           eq_refl Hfd eq_refl Hreal).
Defined.

(** ** A quiet window *)

(** X19: a quiet window from start to end.  On an enabled watcher that
    is not quiet, [dirwatch_set_quiet (TRUE)] makes no call; a drain and a
    timer expiry inside the window apply nothing and the expiry changes no
    static; and [dirwatch_set_quiet (FALSE)] then applies everything that
    is pending in one go (each pending slot whose panel exists reloaded
    once, one repaint, the timer disarmed), or does nothing at all when
    nothing is pending.  Either way the statics end as they were before the
    window, with both pending flags cleared. *)
Theorem quiet_window (env_q env_ev env_t env_u : Env) (s : dirwatch) :
  watcher_enabled s = true ->
  watcher_quiet s = false ->
  let s1 := state_after (dirwatch_set_quiet env_q true) s in
  let s2 := state_after (dirwatch_callback env_ev (inotify_fd s)) s1 in
  let s3 := state_after (dirwatch_timer_callback env_t (timer_fd s)) s2 in
  trace_of (dirwatch_set_quiet env_q true) s = [] /\
  s3 = s2 /\
  nothing_applied
    (trace_of (dirwatch_timer_callback env_t (timer_fd s)) s2) = true /\
  dirwatch_set_quiet env_u false s3 =
    (tt, pending_cleared s,
     if pending_left s2 || pending_right s2 then
       reload_calls env_u slot_left s2 ++ reload_calls env_u slot_right s2 ++
       [repaint_screen] ++ disarm_calls s
     else []).
Proof.
  intros Hen Hq s1 s2 s3.
  assert (Hs1 : s1 = set_watcher_quiet true s).
  { subst s1. unfold state_after. rewrite dirwatch_set_quiet_eq, Hen, Hq.
    reflexivity. }
  assert (Htr1 : trace_of (dirwatch_set_quiet env_q true) s = []).
  { unfold trace_of. rewrite dirwatch_set_quiet_eq, Hen, Hq. reflexivity. }
  pose proof (dirwatch_callback_eq env_ev (set_watcher_quiet true s)) as Hcb.
  cbv zeta in Hcb.
  change (inotify_fd (set_watcher_quiet true s)) with (inotify_fd s) in Hcb.
  assert (Hs2 : s2 = snd (fst (dirwatch_callback env_ev (inotify_fd s)
                                 (set_watcher_quiet true s))))
    by (subst s2; rewrite Hs1; reflexivity).
  rewrite Hcb in Hs2. cbn [fst snd] in Hs2.
  assert (Hshape : exists nl nr : bool,
             s2 = (if nr then set_pending_right true else fun x => x)
                    ((if nl then set_pending_left true else fun x => x)
                       (set_watcher_quiet true s))).
  { destruct (drained (set_watcher_quiet true s) (inotify_reads env_ev)
                (false, false)) as [nl nr].
    exists nl, nr. exact Hs2. }
  clear Hs2 Hcb. destruct Hshape as (nl & nr & Hs2).
  assert (Hs3 : dirwatch_timer_callback env_t (timer_fd s) s2 =
                (0, s2, read (timer_fd s) :: disarm_calls s)).
  { rewrite dirwatch_timer_callback_eq. rewrite Hs2.
    destruct s as [ifd tfd wl wr lp rp en qu pl pr]; cbn in *.
    destruct nl, nr; cbn; rewrite Z.eqb_refl; reflexivity. }
  split; [exact Htr1|].
  split; [subst s3; unfold state_after; rewrite Hs3; reflexivity|].
  split.
  { unfold trace_of. rewrite Hs3. cbn [snd].
    change (nothing_applied (disarm_calls s) = true).
    apply disarm_calls_not_applied. }
  assert (Hs3' : s3 = s2)
    by (subst s3; unfold state_after; rewrite Hs3; reflexivity).
  rewrite Hs3'. rewrite dirwatch_set_quiet_eq. rewrite Hs2.
  destruct s as [ifd tfd wl wr lp rp en qu pl pr]; cbn in *. subst en qu.
  unfold reload_calls, repaint_calls, disarm_calls, pending_cleared, present.
  destruct nl, nr, pl, pr; cbn;
    destruct (left_panel env_u), (right_panel env_u), (0 <=? tfd); reflexivity.
Qed.

Lemma quiet_window_witness :
  let s2 := state_after
              (dirwatch_callback (with_reads [[created 2]] demo_env) 3)
              (state_after (dirwatch_set_quiet demo_env true) demo_enabled) in
  dirwatch_set_quiet demo_env false
    (state_after (dirwatch_timer_callback demo_env 4) s2) =
  (tt, demo_enabled,
   [panel_reload demo_right; repaint_screen; timerfd_settime 4 0]).
Proof.
  cbv zeta.
  pose proof (quiet_window demo_env (with_reads [[created 2]] demo_env)
                demo_env demo_env demo_enabled eq_refl eq_refl) as H.
  cbv zeta in H. destruct H as (_ & _ & _ & H).
  exact H.
Defined.

(** ** How often the panels are touched *)

Lemma trace_of_bind_ret {A : Type} (m : M A) (s : dirwatch) :
  trace_of (_ <- m ;; ret tt) s = trace_of m s.
Proof. rewrite trace_of_bind. cbn. apply app_nil_r. Qed.

Lemma nothing_applied_counts (tr : list call) :
  nothing_applied tr = true ->
  count_calls is_repaint tr = 0%nat /\ count_calls is_reload tr = 0%nat.
Proof.
  unfold nothing_applied, count_calls.
  induction tr as [|c tr IH]; cbn; [split; reflexivity|].
  intros H. apply andb_prop in H. destruct H as [Hc Htr].
  destruct (IH Htr) as [H1 H2].
  destruct c; cbn in *; try discriminate; split; assumption.
Qed.

Lemma apply_counts (env : Env) (s : dirwatch) (pre : list call) :
  nothing_applied pre = true ->
  let tr := pre ++ reload_calls env slot_left s ++ reload_calls env slot_right s ++
            repaint_calls s ++ disarm_calls s in
  (count_calls is_repaint tr <= 1)%nat /\
  (count_calls is_reload tr <= 2)%nat /\
  (0 < count_calls is_reload tr -> count_calls is_repaint tr = 1)%nat.
Proof.
  intros Hpre tr. subst tr.
  destruct (nothing_applied_counts pre Hpre) as [P1 P2].
  unfold count_calls in *.
  rewrite !filter_app, !length_app, P1, P2.
  unfold reload_calls, repaint_calls, disarm_calls; cbn.
  destruct (left_panel env), (right_panel env),
    (pending_left s), (pending_right s), (present (timer_fd s));
    cbn; repeat split; lia.
Qed.

(** X20: how much one entry can do to the panels.  Whatever the entry,
    the state and the world, one run calls the repaint at most once and
    the reload at most twice (once per slot), and whenever it reloads at
    all it repaints exactly once. *)
Theorem one_entry_repaints_at_most_once (env : Env) (e : entry) (s : dirwatch) :
  let tr := trace_of (run_entry env e) s in
  (count_calls is_repaint tr <= 1)%nat /\
  (count_calls is_reload tr <= 2)%nat /\
  (0 < count_calls is_reload tr -> count_calls is_repaint tr = 1)%nat.
Proof.
  cbv zeta.
  assert (Hquiet : forall tr, nothing_applied tr = true ->
            (count_calls is_repaint tr <= 1)%nat /\
            (count_calls is_reload tr <= 2)%nat /\
            (0 < count_calls is_reload tr -> count_calls is_repaint tr = 1)%nat).
  { intros tr Hn. destruct (nothing_applied_counts tr Hn) as [H1 H2].
    rewrite H1, H2. repeat split; lia. }
  destruct (is_timer_entry e) eqn:Ht.
  - destruct e as [b|b|p|fd|fd]; try discriminate. cbn [run_entry].
    rewrite trace_of_bind_ret.
    unfold trace_of. rewrite dirwatch_timer_callback_eq.
    destruct (negb (fd =? timer_fd s)); cbn [snd];
      [apply Hquiet; reflexivity|].
    destruct (watcher_quiet s); cbn [snd].
    + apply Hquiet. apply (disarm_calls_not_applied s).
    + apply (apply_counts env s [read (timer_fd s)]). reflexivity.
  - destruct (not_unquiet e) eqn:Hnu.
    + apply Hquiet.
      exact (proj1 (run_entry_applies_nothing env e s Hnu (or_intror Ht))).
    + destruct e as [b|b|p|fd|fd]; try discriminate.
      destruct b; [discriminate|]. cbn [run_entry].
      unfold trace_of. rewrite dirwatch_set_quiet_eq.
      destruct (negb (watcher_enabled s) || Bool.eqb (watcher_quiet s) false);
        cbn [snd]; [apply Hquiet; reflexivity|].
      destruct (negb false && (pending_left s || pending_right s));
        cbn [snd]; [|apply Hquiet; reflexivity].
      apply (apply_counts env s []). reflexivity.
Qed.

Lemma one_entry_repaints_at_most_once_witness :
  count_calls is_reload
    (trace_of (run_entry demo_env (enter_timer_callback 4)) demo_pending) = 1%nat /\
  count_calls is_repaint
    (trace_of (run_entry demo_env (enter_timer_callback 4)) demo_pending) = 1%nat.
Proof.
  split; [reflexivity|].
  apply (proj2 (proj2 (one_entry_repaints_at_most_once demo_env
                         (enter_timer_callback 4) demo_pending))).
  cbn. lia.
Defined.

(** ** Two slots on one watch *)

Lemma dirwatch_update_watches_one_block (env : Env) (k : slot) (s : dirwatch) :
  watcher_enabled s = true ->
  0 <= inotify_fd s ->
  in_sync env (other_slot k) s = true ->
  dirwatch_update_watches env s = update_block env k s.
Proof.
  intros Hen Hfd Hs. apply Z.ltb_ge in Hfd.
  rewrite dirwatch_update_watches_eq, Hen, Hfd. cbn [negb orb].
  unfold bind.
  destruct k; cbn [other_slot] in Hs.
  - destruct (update_block_frame env slot_left s) as (_ & _ & F3).
    cbn [other_slot] in F3. unfold state_after in F3.
    destruct (update_block env slot_left s) as [[[] sL] tL]; cbn in F3.
    rewrite (update_block_in_sync env slot_right sL) by congruence.
    rewrite app_nil_r. reflexivity.
  - rewrite (update_block_in_sync env slot_left s Hs).
    destruct (update_block env slot_right s) as [[[] sR] tR]. reflexivity.
Qed.

(** X21: two slots on one watch.  When both slots hold the same watch
    handle (both panels showed one directory) and one panel moves to
    another path while the other stays, [dirwatch_update_watches] removes
    the watch of that shared handle and registers the new path for the
    slot that moved; the slot that stayed is not touched and goes on
    storing the handle whose watch has just been removed. *)
Theorem shared_watch_is_removed_under_staying_slot
    (env : Env) (k : slot) (h : Z) (path : string) (s : dirwatch) :
  watcher_enabled s = true ->
  0 <= inotify_fd s ->
  0 <= h ->
  handle_of k s = h ->
  handle_of (other_slot k) s = h ->
  eligible env k = Some path ->
  path_differs (path_of k s) path = true ->
  in_sync env (other_slot k) s = true ->
  let s' := state_after (dirwatch_update_watches env) s in
  trace_of (dirwatch_update_watches env) s =
    [inotify_rm_watch (inotify_fd s) h;
     inotify_add_watch (inotify_fd s) path DW_MASK] /\
  handle_of k s' = inotify_add_watch_result env (inotify_fd s) path /\
  path_of k s' = Some path /\
  handle_of (other_slot k) s' = h /\
  path_of (other_slot k) s' = path_of (other_slot k) s.
Proof.
  intros Hen Hfd Hh Hk Ho Hel Hdiff Hsync s'. subst s'.
  unfold state_after, trace_of.
  rewrite (dirwatch_update_watches_one_block env k s Hen Hfd Hsync).
  rewrite update_block_eq, Hel, Hdiff, Hk.
  apply Z.leb_le in Hh. unfold present. rewrite Hh. cbn [fst snd app].
  destruct s as [ifd tfd wl wr lp rp en qu pl pr].
  destruct k; cbn in *; subst; repeat split.
Qed.

Lemma shared_watch_is_removed_under_staying_slot_witness :
  handle_of slot_left demo_shared_enabled = 1 /\
  handle_of slot_right demo_shared_enabled = 1 /\
  let env := with_panels (Some demo_left) (Some demo_right) demo_shared in
  trace_of (dirwatch_update_watches env) demo_shared_enabled =
    [inotify_rm_watch 3 1; inotify_add_watch 3 "/var" DW_MASK] /\
  handle_of slot_left
    (state_after (dirwatch_update_watches env) demo_shared_enabled) = 1.
Proof.
  assert (H3 : 0 <= inotify_fd demo_shared_enabled) by (cbn; lia).
  assert (H1 : 0 <= 1) by lia.
  split; [reflexivity|]. split; [reflexivity|]. cbv zeta.
  pose proof (shared_watch_is_removed_under_staying_slot
                (with_panels (Some demo_left) (Some demo_right) demo_shared)
                slot_right 1 "/var" demo_shared_enabled
                eq_refl H3 H1 eq_refl eq_refl eq_refl eq_refl eq_refl) as H.
  cbv zeta in H. destruct H as (Htr & _ & _ & Ho & _).
  split; [exact Htr | exact Ho].
Defined.
